(** * CapNest backend: response normalisation and fallback policy

    A shallow embedding of the request handlers of [src/server.js] and
    [src/integrated-server.js]: the credit heuristic, the two prompt
    builders, the parsing of the chat reply, the document extractor and the
    three fail-soft handlers, over a small model of the JavaScript values
    and coercions the handlers rely on. *)

From Stdlib Require Import String Ascii List ZArith NArith QArith Bool Lia.
From Stdlib Require Import DecimalString.
Import ListNotations.

Local Open Scope string_scope.
Local Open Scope list_scope.
Local Open Scope Z_scope.

Set Warnings "-register-all".

(* ================================================================== *)
(** * JavaScript values, errors and coercions *)
(* ================================================================== *)

(** A JavaScript string is a sequence of UTF-16 code units. *)
Definition jsstring := list N.

(** An ASCII literal of the source, as code units. *)
Definition lit (s : string) : jsstring :=
  map N_of_ascii (list_ascii_of_string s).

Fixpoint str_eqb (a b : jsstring) : bool :=
  match a, b with
  | [], [] => true
  | x :: a', y :: b' => N.eqb x y && str_eqb a' b'
  | _, _ => false
  end.

(** A Number: NaN, the two infinities, or a finite double, held as the
    rational it denotes (the sign of zero is not kept: no operation of the
    handlers observes it). *)
Inductive number :=
| NaN
| PInf
| NInf
| Fin (q : Q).

Definition num_of_Z (z : Z) : number := Fin (inject_Z z).
Definition num_of_nat (n : nat) : number := num_of_Z (Z.of_nat n).

(** The values a handler sees: request-body fields, parsed replies, the
    results of the document service and the objects handed to [res.json].
    An object is its list of own properties in enumeration order. *)
Inductive JsValue :=
| JUndefined
| JNull
| JBool (b : bool)
| JNumber (n : number)
| JString (s : jsstring)
| JArray (xs : list JsValue)
| JObject (props : list (jsstring * JsValue)).

(** The two conversions between strings and numbers belong to the engine
    (Number::toString picks the shortest digits that round-trip;
    StringToNumber rounds the literal to the nearest double).  The handlers
    are written over any such pair. *)
Class Runtime := {
  NumberToString : number -> jsstring;
  StringToNumber : jsstring -> number
}.

(** A thrown [Error]; the handlers read its [message] only. *)
Module Error.
Record t := { message : jsstring }.
End Error.

(** The outcome of an expression that may throw, or of an awaited promise
    that may reject. *)
Inductive Exc (A : Type) :=
| Return (a : A)
| Throw (e : Error.t).
Arguments Return {A} a.
Arguments Throw {A} e.

Definition bindE {A B} (e : Exc A) (k : A -> Exc B) : Exc B :=
  match e with
  | Return a => k a
  | Throw err => Throw err
  end.

Notation "x <~ e ;; k" := (bindE e (fun x => k))
  (at level 61, e at next level, right associativity).

(** Left to right; the first throw wins. *)
Fixpoint sequence {A} (l : list (Exc A)) : Exc (list A) :=
  match l with
  | [] => Return []
  | e :: rest => a <~ e ;; others <~ sequence rest ;; Return (a :: others)
  end.

(** The TypeErrors of the engine, with the messages V8 gives them. *)
Definition TypeError_cannot_convert : Error.t :=
  {| Error.message := lit "Cannot convert object to primitive value" |}.

Definition TypeError_read (base prop : string) : Error.t :=
  {| Error.message :=
       lit "Cannot read properties of " ++ lit base
       ++ lit " (reading '" ++ lit prop ++ lit "')" |}.

Definition TypeError_undefined (prop : string) : Error.t :=
  TypeError_read "undefined" prop.

Definition TypeError_destructure (base prop : string) : Error.t :=
  {| Error.message :=
       lit "Cannot destructure property '" ++ lit prop
       ++ lit "' of 'req.body' as it is " ++ lit base ++ lit "." |}.

Definition TypeError_not_a_function (callee : string) : Error.t :=
  {| Error.message := lit callee ++ lit " is not a function" |}.

(** [a.join(sep)] over already converted elements. *)
Fixpoint join (sep : jsstring) (parts : list jsstring) : jsstring :=
  match parts with
  | [] => []
  | [p] => p
  | p :: rest => p ++ sep ++ join sep rest
  end.

(** Own-property lookup; a property that is not there reads as undefined. *)
Fixpoint lookup (k : jsstring) (props : list (jsstring * JsValue)) : JsValue :=
  match props with
  | [] => JUndefined
  | (k', v) :: rest => if str_eqb k k' then v else lookup k rest
  end.

Definition has_own (k : jsstring) (props : list (jsstring * JsValue)) : bool :=
  existsb (fun p => str_eqb k (fst p)) props.

Section Coercions.
Context {rt : Runtime}.

(** ToBoolean. *)
Definition ToBoolean (v : JsValue) : bool :=
  match v with
  | JUndefined | JNull => false
  | JBool b => b
  | JNumber NaN => false
  | JNumber (Fin q) => negb (Qeq_bool q 0)
  | JNumber _ => true
  | JString s => match s with [] => false | _ => true end
  | JArray _ | JObject _ => true
  end.

(** ToString, as a template literal and [JSON.parse] apply it.  An array
    prints as its elements joined by commas, null and undefined elements
    printing as nothing.  A plain object prints as [[object Object]] through
    the inherited [toString]; but an object that carries a [toString]
    property of its own, which in a value decoded from JSON is never a
    function, has no primitive value, and the conversion throws. *)
Fixpoint ToString (v : JsValue) : Exc jsstring :=
  match v with
  | JUndefined => Return (lit "undefined")
  | JNull => Return (lit "null")
  | JBool true => Return (lit "true")
  | JBool false => Return (lit "false")
  | JNumber n => Return (NumberToString n)
  | JString s => Return s
  | JArray xs =>
      parts <~ sequence
                 (map (fun x => match x with
                                | JUndefined | JNull => Return []
                                | _ => ToString x
                                end) xs) ;;
      Return (join (lit ",") parts)
  | JObject props =>
      if has_own (lit "toString") props
      then Throw TypeError_cannot_convert
      else Return (lit "[object Object]")
  end.

(** ToNumber; arrays and objects go through their string form (their
    inherited [valueOf] gives no primitive), and throw where that does. *)
Definition ToNumber (v : JsValue) : Exc number :=
  match v with
  | JUndefined => Return NaN
  | JNull => Return (Fin 0)
  | JBool true => Return (Fin 1)
  | JBool false => Return (Fin 0)
  | JNumber n => Return n
  | JString s => Return (StringToNumber s)
  | JArray _ | JObject _ => s <~ ToString v ;; Return (StringToNumber s)
  end.

(** [v >= k] for a numeric literal [k]: the left operand is converted to a
    number, and a NaN makes the comparison false. *)
Definition ge (v : JsValue) (k : Z) : Exc bool :=
  n <~ ToNumber v ;;
  Return (match n with
          | NaN => false
          | PInf => true
          | NInf => false
          | Fin q => Qle_bool (inject_Z k) q
          end).

(** [a || b]. *)
Definition or_else (a b : JsValue) : JsValue :=
  if ToBoolean a then a else b.

End Coercions.

(** Object, string and integer literals of the source. *)
Definition obj (props : list (string * JsValue)) : JsValue :=
  JObject (map (fun p => (lit (fst p), snd p)) props).
Definition str (s : string) : JsValue := JString (lit s).
Definition num (z : Z) : JsValue := JNumber (num_of_Z z).

(** A property of a value that is known to be there to read: of an object,
    its own property; of anything else, undefined. *)
Definition get (o : JsValue) (k : string) : JsValue :=
  match o with
  | JObject props => lookup (lit k) props
  | _ => JUndefined
  end.

Definition has (o : JsValue) (k : string) : bool :=
  match o with
  | JObject props => has_own (lit k) props
  | _ => false
  end.

(** [o.k], for the property names the handlers read (pages, length,
    content, keyValuePairs, key, value, confidence; none but [length] is on
    a prototype): reading a property of undefined or null throws; an array
    and a string have a [length]; a number or a boolean has none of them. *)
Definition getprop (o : JsValue) (k : string) : Exc JsValue :=
  match o with
  | JUndefined => Throw (TypeError_read "undefined" k)
  | JNull => Throw (TypeError_read "null" k)
  | JObject props => Return (lookup (lit k) props)
  | JArray xs =>
      Return (if String.eqb k "length"
              then JNumber (num_of_nat (List.length xs)) else JUndefined)
  | JString s =>
      Return (if String.eqb k "length"
              then JNumber (num_of_nat (List.length s)) else JUndefined)
  | JBool _ | JNumber _ => Return JUndefined
  end.

(** [o?.k]: undefined when [o] is undefined or null. *)
Definition optprop (o : JsValue) (k : string) : JsValue :=
  match getprop o k with
  | Return v => v
  | Throw _ => JUndefined
  end.

(** [const { k } = req.body]: a body that is undefined or null cannot be
    destructured. *)
Definition destructure (req_body : JsValue) (k : string) : Exc JsValue :=
  match req_body with
  | JUndefined => Throw (TypeError_destructure "undefined" k)
  | JNull => Throw (TypeError_destructure "null" k)
  | _ => Return (get req_body k)
  end.

(** [s.substring(a, b)] for non-negative integer arguments: both ends are
    clamped to the length and swapped when out of order. *)
Definition substring (s : jsstring) (a b : nat) : jsstring :=
  let a' := Nat.min a (List.length s) in
  let b' := Nat.min b (List.length s) in
  let lo := Nat.min a' b' in
  let hi := Nat.max a' b' in
  firstn (hi - lo) (skipn lo s).

(** [xs.slice(a, b)] for non-negative integer arguments. *)
Definition slice {A} (xs : list A) (a b : nat) : list A :=
  let a' := Nat.min a (List.length xs) in
  let b' := Nat.min b (List.length xs) in
  firstn (b' - a') (skipn a' xs).

(* ================================================================== *)
(** * The credit heuristic *)
(* ================================================================== *)

Section Heuristic.
Context {rt : Runtime}.

(** [creditScore >= 750 ? 90 : creditScore >= 700 ? 75 :
     creditScore >= 650 ? 55 : 35] *)
Definition approvalProbability (creditScore : JsValue) : Exc Z :=
  c750 <~ ge creditScore 750 ;;
  if c750 then Return 90 else
  c700 <~ ge creditScore 700 ;;
  if c700 then Return 75 else
  c650 <~ ge creditScore 650 ;;
  if c650 then Return 55 else Return 35.

(** [creditScore >= 700 ? 'Low' : creditScore >= 600 ? 'Medium' : 'High'] *)
Definition riskLevel (creditScore : JsValue) : Exc string :=
  c700 <~ ge creditScore 700 ;;
  if c700 then Return "Low" else
  c600 <~ ge creditScore 600 ;;
  if c600 then Return "Medium" else Return "High".

End Heuristic.

(* ================================================================== *)
(** * JSON.parse *)
(* ================================================================== *)

Local Open Scope N_scope.

Definition is_ws (c : N) : bool :=
  (c =? 9) || (c =? 10) || (c =? 13) || (c =? 32).

Fixpoint skip_ws (s : jsstring) : jsstring :=
  match s with
  | c :: r => if is_ws c then skip_ws r else s
  | [] => []
  end.

Definition is_digit (c : N) : bool := (48 <=? c) && (c <=? 57).

Fixpoint span (p : N -> bool) (s : jsstring) : jsstring * jsstring :=
  match s with
  | c :: r => if p c then let (a, b) := span p r in (c :: a, b) else ([], s)
  | [] => ([], [])
  end.

Definition hex_value (c : N) : option N :=
  if is_digit c then Some (c - 48)
  else if (65 <=? c) && (c <=? 70) then Some (c - 55)
  else if (97 <=? c) && (c <=? 102) then Some (c - 87)
  else None.

(** The characters of a string literal after its opening quote, up to the
    closing quote: escapes are decoded, a raw control character is refused. *)
Fixpoint parse_chars (s acc : jsstring) : option (jsstring * jsstring) :=
  match s with
  | [] => None
  | c :: r =>
      if c =? 34 then Some (rev acc, r)
      else if c =? 92 then
        match r with
        | e :: r' =>
            if e =? 34 then parse_chars r' (34 :: acc)
            else if e =? 92 then parse_chars r' (92 :: acc)
            else if e =? 47 then parse_chars r' (47 :: acc)
            else if e =? 98 then parse_chars r' (8 :: acc)
            else if e =? 102 then parse_chars r' (12 :: acc)
            else if e =? 110 then parse_chars r' (10 :: acc)
            else if e =? 114 then parse_chars r' (13 :: acc)
            else if e =? 116 then parse_chars r' (9 :: acc)
            else if e =? 117 then
              match r' with
              | h1 :: h2 :: h3 :: h4 :: r'' =>
                  match hex_value h1, hex_value h2, hex_value h3, hex_value h4 with
                  | Some a, Some b, Some c', Some d =>
                      parse_chars r'' (((a * 16 + b) * 16 + c') * 16 + d :: acc)
                  | _, _, _, _ => None
                  end
              | _ => None
              end
            else None
        | [] => None
        end
      else if c <? 32 then None
      else parse_chars r (c :: acc)
  end.

(** An optional first code unit satisfying [p], and the rest. *)
Definition scan_opt (p : N -> bool) (s : jsstring) : jsstring * jsstring :=
  match s with
  | c :: r => if p c then ([c], r) else ([], s)
  | [] => ([], [])
  end.

(** One digit or more, and the rest. *)
Definition scan_digits (s : jsstring) : option (jsstring * jsstring) :=
  match span is_digit s with
  | ([], _) => None
  | (ds, r) => Some (ds, r)
  end.

(** The integer part: a zero, or digits that do not start with a zero. *)
Definition scan_int (s : jsstring) : option (jsstring * jsstring) :=
  match s with
  | c :: r => if c =? 48 then Some ([c], r) else scan_digits s
  | [] => None
  end.

(** An optional fraction: a dot and digits. *)
Definition scan_frac (s : jsstring) : option (jsstring * jsstring) :=
  match s with
  | d :: r =>
      if d =? 46 then
        match scan_digits r with
        | Some (ds, r') => Some (d :: ds, r')
        | None => None
        end
      else Some ([], s)
  | [] => Some ([], [])
  end.

(** An optional exponent: e or E, an optional sign, digits. *)
Definition scan_exp (s : jsstring) : option (jsstring * jsstring) :=
  match s with
  | e :: r =>
      if (e =? 101) || (e =? 69) then
        let '(sg, r1) := scan_opt (fun g => (g =? 43) || (g =? 45)) r in
        match scan_digits r1 with
        | Some (ds, r2) => Some (e :: sg ++ ds, r2)
        | None => None
        end
      else Some ([], s)
  | [] => Some ([], [])
  end.

(** The longest prefix that is a JSON number (an optional minus sign, the
    integer part, an optional fraction, an optional exponent), and the rest
    of the text. *)
Definition scan_number (s : jsstring) : option (jsstring * jsstring) :=
  let '(sign, s1) := scan_opt (N.eqb 45) s in
  match scan_int s1 with
  | None => None
  | Some (int, s2) =>
      match scan_frac s2 with
      | None => None
      | Some (fr, s3) =>
          match scan_exp s3 with
          | None => None
          | Some (ex, s4) => Some (sign ++ int ++ fr ++ ex, s4)
          end
      end
  end.

(** [s] starts with the word [w]: the rest of [s]. *)
Fixpoint strip_prefix (w s : jsstring) : option jsstring :=
  match w, s with
  | [], _ => Some s
  | a :: w', b :: s' => if a =? b then strip_prefix w' s' else None
  | _ :: _, [] => None
  end.

(** An array index: the decimal digits of an integer below 2^32 - 1, with
    no leading zero. *)
Definition index_of (k : jsstring) : option N :=
  match k with
  | [] => None
  | c :: rest =>
      if forallb is_digit k && (negb (c =? 48) || match rest with [] => true | _ => false end)
      then
        let n := fold_left (fun acc d => acc * 10 + (d - 48)) k 0 in
        if n <? 4294967295 then Some n else None
      else None
  end.

(** A new key goes before [k'] when it is an index and [k'] is a larger
    index or no index. *)
Definition goes_before (k k' : jsstring) : bool :=
  match index_of k, index_of k' with
  | Some n, Some n' => n <? n'
  | Some _, None => true
  | None, _ => false
  end.

(** Defining a property: a key that is already there keeps its place and
    takes the new value; a new key that is an array index goes among the
    indices, which an object lists first and in ascending order; any other
    new key goes last. *)
Fixpoint insert_new (k : jsstring) (v : JsValue) (props : list (jsstring * JsValue))
  : list (jsstring * JsValue) :=
  match props with
  | [] => [(k, v)]
  | (k', v') :: rest =>
      if goes_before k k' then (k, v) :: (k', v') :: rest
      else (k', v') :: insert_new k v rest
  end.

Fixpoint replace_value (k : jsstring) (v : JsValue) (props : list (jsstring * JsValue))
  : list (jsstring * JsValue) :=
  match props with
  | [] => []
  | (k', v') :: rest =>
      if str_eqb k k' then (k, v) :: rest else (k', v') :: replace_value k v rest
  end.

Definition define (k : jsstring) (v : JsValue) (props : list (jsstring * JsValue))
  : list (jsstring * JsValue) :=
  if has_own k props then replace_value k v props else insert_new k v props.

Section JSON.
Context {rt : Runtime}.

Definition parse_literal (s : jsstring) : option (JsValue * jsstring) :=
  match strip_prefix (lit "null") s with
  | Some r => Some (JNull, r)
  | None =>
  match strip_prefix (lit "true") s with
  | Some r => Some (JBool true, r)
  | None =>
  match strip_prefix (lit "false") s with
  | Some r => Some (JBool false, r)
  | None =>
  match scan_number s with
  | Some (text, r) => Some (JNumber (StringToNumber text), r)
  | None => None
  end end end end.

(** Recursive descent over the text.  Every call spends one unit of
    [fuel]; [JSON_parse] gives a text of [n] code units [2 * n + 2] units,
    beyond which the answer no longer changes ([parse_fuel_stable]). *)
Fixpoint parse_value (fuel : nat) (s : jsstring) : option (JsValue * jsstring) :=
  match fuel with
  | O => None
  | S fuel' =>
      match skip_ws s with
      | [] => None
      | c :: r =>
          if c =? 123 then
            match skip_ws r with
            | c' :: r' =>
                if c' =? 125 then Some (JObject [], r')
                else parse_members fuel' (c' :: r') []
            | [] => None
            end
          else if c =? 91 then
            match skip_ws r with
            | c' :: r' =>
                if c' =? 93 then Some (JArray [], r')
                else parse_elements fuel' (c' :: r') []
            | [] => None
            end
          else if c =? 34 then
            match parse_chars r [] with
            | Some (str, r') => Some (JString str, r')
            | None => None
            end
          else parse_literal (c :: r)
      end
  end
with parse_elements (fuel : nat) (s : jsstring) (acc : list JsValue)
  : option (JsValue * jsstring) :=
  match fuel with
  | O => None
  | S fuel' =>
      match parse_value fuel' s with
      | Some (v, r) =>
          match skip_ws r with
          | c :: r' =>
              if c =? 44 then parse_elements fuel' r' (v :: acc)
              else if c =? 93 then Some (JArray (rev (v :: acc)), r')
              else None
          | [] => None
          end
      | None => None
      end
  end
with parse_members (fuel : nat) (s : jsstring) (acc : list (jsstring * JsValue))
  : option (JsValue * jsstring) :=
  match fuel with
  | O => None
  | S fuel' =>
      match skip_ws s with
      | c :: r =>
          if c =? 34 then
            match parse_chars r [] with
            | Some (k, r1) =>
                match skip_ws r1 with
                | c1 :: r2 =>
                    if c1 =? 58 then
                      match parse_value fuel' r2 with
                      | Some (v, r3) =>
                          match skip_ws r3 with
                          | c3 :: r4 =>
                              if c3 =? 44 then
                                parse_members fuel' r4 (define k v acc)
                              else if c3 =? 125 then
                                Some (JObject (define k v acc), r4)
                              else None
                          | [] => None
                          end
                      | None => None
                      end
                    else None
                | [] => None
                end
            | None => None
            end
          else None
      | [] => None
      end
  end.

(** [JSON.parse(text)]: the argument is converted to a string first;
    [None] stands for the error it throws, the SyntaxError of a text that
    is not JSON or the TypeError of an argument that has no string form. *)
Definition JSON_parse (text : JsValue) : option JsValue :=
  match ToString text with
  | Throw _ => None
  | Return s =>
      match parse_value (2 * List.length s + 2) s with
      | Some (v, r) => match skip_ws r with [] => Some v | _ => None end
      | None => None
      end
  end.

End JSON.

Local Close Scope N_scope.
(* ================================================================== *)
(** * A runtime for closed examples *)
(* ================================================================== *)

(** The decimal digits of an integer, with a minus sign when negative. *)
Definition decimal (z : Z) : jsstring :=
  lit (NilZero.string_of_int (Z.to_int z)).

Definition digits_value (ds : jsstring) : Z :=
  fold_left (fun acc c => acc * 10 + (Z.of_N c - 48)) ds 0.

(** Number::toString on the integers (their decimal digits, which is what
    an engine prints below 10^21) and on NaN and the infinities.  A fraction
    has no faithful rendering here and prints as numerator/denominator; no
    example below reaches that case. *)
Definition integer_NumberToString (n : number) : jsstring :=
  match n with
  | NaN => lit "NaN"
  | PInf => lit "Infinity"
  | NInf => lit "-Infinity"
  | Fin q =>
      let r := Qred q in
      if Pos.eqb (Qden r) 1 then decimal (Qnum r)
      else decimal (Qnum r) ++ lit "/" ++ decimal (Z.pos (Qden r))
  end.

(** StringToNumber on the empty string and on decimal literals (a sign,
    digits, a fraction, an exponent), read as the exact rational the text
    denotes: the engine's answer whenever that rational is a double.  Every
    other text reads as NaN: an engine agrees unless the text is one of the
    numeric forms left out here (surrounding white space, a radix prefix,
    Infinity). *)
Definition split_sign (s : jsstring) : bool * jsstring :=
  match s with
  | c :: r => if N.eqb c 45 then (true, r)
              else if N.eqb c 43 then (false, r)
              else (false, s)
  | [] => (false, [])
  end.

Definition decimal_exponent (s : jsstring) : option Z :=
  match s with
  | [] => Some 0
  | e :: r =>
      if N.eqb e 101 || N.eqb e 69 then
        let '(neg, ds) := split_sign r in
        match ds with
        | [] => None
        | _ =>
            if forallb is_digit ds
            then Some (if neg then - digits_value ds else digits_value ds)
            else None
        end
      else None
  end.

Definition decimal_StringToNumber (s : jsstring) : number :=
  match s with
  | [] => Fin 0
  | _ =>
      let '(neg, s1) := split_sign s in
      let '(int, s2) := span is_digit s1 in
      let '(frac, s3) :=
        match s2 with
        | d :: r => if N.eqb d 46 then span is_digit r else ([], s2)
        | [] => ([], [])
        end in
      match int ++ frac, decimal_exponent s3 with
      | [], _ | _, None => NaN
      | ds, Some e =>
          let m := digits_value ds in
          Fin (Qred (inject_Z (if neg then - m else m)
                     * Qpower (inject_Z 10) (e - Z.of_nat (List.length frac))))
      end
  end.

Definition example_runtime : Runtime :=
  {| NumberToString := integer_NumberToString;
     StringToNumber := decimal_StringToNumber |}.


(* ================================================================== *)
(** * The two Azure clients and outbound calls *)
(* ================================================================== *)

Module ChatRequestMessage.
Record t := { role : jsstring; content : jsstring }.
End ChatRequestMessage.

Module ChatOptions.
Record t := { maxTokens : Z; temperature : Q }.
End ChatOptions.

(** The reply of the chat service, as far as the handlers read it:
    [result.choices[0].message.content]. *)
Module ChatResponseMessage.
Record t := { content : JsValue }.
End ChatResponseMessage.

Module ChatChoice.
Record t := { message : option ChatResponseMessage.t }.
End ChatChoice.

Module ChatCompletions.
Record t := { choices : list ChatChoice.t }.
End ChatCompletions.

(** The poller of a document analysis resolves with the result as the
    service library built it: a value, which the handler then reads. *)
Module Poller.
Record t := { pollUntilDone : Exc JsValue }.
End Poller.

(** The upload multer leaves in [req.file]. *)
Module File.
Record t := { buffer : list Byte.byte; mimetype : jsstring }.
End File.

(** What lies outside the process: the deployment name of the environment
    and the behaviour of the two remote services. *)
Record World := {
  AZURE_OPENAI_DEPLOYMENT : option jsstring;
  getChatCompletions :
    jsstring -> list ChatRequestMessage.t -> ChatOptions.t -> Exc ChatCompletions.t;
  beginAnalyzeDocument : jsstring -> list Byte.byte -> Exc Poller.t
}.

(** An outbound call, as it leaves the process. *)
Inductive Call :=
| CallGetChatCompletions
    (deployment : jsstring) (messages : list ChatRequestMessage.t)
    (options : ChatOptions.t)
| CallBeginAnalyzeDocument (model : jsstring) (document : list Byte.byte)
| CallPollUntilDone.

(** A handler body: it may throw, and it appends to the log of outbound
    calls. *)
Definition M (A : Type) : Type := list Call -> Exc A * list Call.

Definition ret {A} (a : A) : M A := fun log => (Return a, log).

Definition bind {A B} (m : M A) (k : A -> M B) : M B :=
  fun log =>
    match m log with
    | (Return a, log') => k a log'
    | (Throw e, log') => (Throw e, log')
    end.

Definition lift {A} (r : Exc A) : M A := fun log => (r, log).

(** [await] of a remote call: the call is logged, then resolves or rejects. *)
Definition await {A} (c : Call) (r : Exc A) : M A :=
  fun log => (r, log ++ [c]).

(** [try { body } catch (error) { handler }]. *)
Definition try_catch {A} (body : M A) (handler : Error.t -> M A) : M A :=
  fun log =>
    match body log with
    | (Return a, log') => (Return a, log')
    | (Throw e, log') => handler e log'
    end.

(** A handler run on a fresh request: its outcome and the calls it made.
    An outcome that is a throw is an error the handler let out: no answer
    is sent. *)
Definition run {A} (m : M A) : Exc A * list Call := m [].

Notation "x <- m ;; k" := (bind m (fun x => k))
  (at level 61, m at next level, right associativity).

(** [process.env.X || fallback]. *)
Definition env_or (v : option jsstring) (fallback : jsstring) : jsstring :=
  match v with
  | Some (c :: s) => c :: s
  | _ => fallback
  end.

(** An HTTP response: [res.json(x)] answers 200 unless [res.status] was set. *)
Record Response := { status : Z; body : JsValue }.

Definition res_json (x : JsValue) : Response := {| status := 200; body := x |}.
Definition res_status_json (code : Z) (x : JsValue) : Response :=
  {| status := code; body := x |}.

Definition nl : jsstring := [10%N].

(* ================================================================== *)
(** * The handlers *)
(* ================================================================== *)

(** The handlers of the two entry points are the same text but for the
    currency sign of the prompts and of the fallback recommendation: the
    rupee sign U+20B9 in [server.js], the three code units U+00E2 U+201A
    U+00B9 in [integrated-server.js]. *)
Inductive EntryPoint := ServerJs | IntegratedServerJs.

Definition rupee (ep : EntryPoint) : jsstring :=
  match ep with
  | ServerJs => [8377%N]
  | IntegratedServerJs => [226%N; 8218%N; 185%N]
  end.

Section Handlers.
Context {rt : Runtime}.
Variable ep : EntryPoint.
Variable world : World.

Definition openAIClient_getChatCompletions
    (deployment : jsstring) (messages : list ChatRequestMessage.t)
    (options : ChatOptions.t) : M ChatCompletions.t :=
  await (CallGetChatCompletions deployment messages options)
        (getChatCompletions world deployment messages options).

Definition documentClient_beginAnalyzeDocument
    (model : jsstring) (document : list Byte.byte) : M Poller.t :=
  await (CallBeginAnalyzeDocument model document)
        (beginAnalyzeDocument world model document).

Definition poller_pollUntilDone (poller : Poller.t) : M JsValue :=
  await CallPollUntilDone (Poller.pollUntilDone poller).

(** [result.choices[0].message.content] *)
Definition first_choice_content (result : ChatCompletions.t) : Exc JsValue :=
  match ChatCompletions.choices result with
  | [] => Throw (TypeError_undefined "message")
  | choice :: _ =>
      match ChatChoice.message choice with
      | None => Throw (TypeError_undefined "content")
      | Some m => Return (ChatResponseMessage.content m)
      end
  end.

(** [process.env.AZURE_OPENAI_DEPLOYMENT || 'gpt-4'] *)
Definition deployment : jsstring :=
  env_or (AZURE_OPENAI_DEPLOYMENT world) (lit "gpt-4").

(** ** POST /api/check-eligibility *)

(** The destructuring of the body and the template literal: each
    interpolated field is converted to a string, in the order of the
    text, and a field that has no string form throws. *)
Definition eligibilityPrompt (req_body : JsValue) : Exc jsstring :=
  loanType <~ destructure req_body "loanType" ;;
  amount <~ destructure req_body "amount" ;;
  income <~ destructure req_body "income" ;;
  creditScore <~ destructure req_body "creditScore" ;;
  employment <~ destructure req_body "employment" ;;
  existingLoans <~ destructure req_body "existingLoans" ;;
  loanType' <~ ToString loanType ;;
  amount' <~ ToString amount ;;
  income' <~ ToString income ;;
  creditScore' <~ ToString creditScore ;;
  employment' <~ ToString employment ;;
  Return
    (lit "You are a loan eligibility expert. Analyze this loan application:" ++ nl ++
     lit "    " ++ nl ++
     lit "Loan Type: " ++ loanType' ++ nl ++
     lit "Requested Amount: " ++ rupee ep ++ amount' ++ nl ++
     lit "Monthly Income: " ++ rupee ep ++ income' ++ nl ++
     lit "Credit Score: " ++ creditScore' ++ nl ++
     lit "Employment: " ++ employment' ++ nl ++
     lit "Existing Loans: "
       ++ (if ToBoolean existingLoans then lit "Yes" else lit "No") ++ nl ++
     nl ++
     lit "Provide a detailed eligibility analysis with:" ++ nl ++
     lit "1. Approval probability (percentage)" ++ nl ++
     lit "2. Risk assessment (Low/Medium/High)" ++ nl ++
     lit "3. Recommendations" ++ nl ++
     lit "4. Suitable banks" ++ nl ++
     nl ++
     lit "Format as JSON with keys: approvalProbability, riskLevel, recommendations, suitableBanks").

Definition eligibilityMessages (prompt : jsstring)
  : list ChatRequestMessage.t :=
  [ {| ChatRequestMessage.role := lit "system";
       ChatRequestMessage.content :=
         lit "You are a financial advisor specializing in loan eligibility assessment." |};
    {| ChatRequestMessage.role := lit "user";
       ChatRequestMessage.content := prompt |} ].

(** [{ maxTokens: 500, temperature: 0.7 }] *)
Definition eligibilityOptions : ChatOptions.t :=
  {| ChatOptions.maxTokens := 500; ChatOptions.temperature := 7 # 10 |}.

Definition suitableBanks : JsValue :=
  JArray [str "HDFC Bank"; str "SBI"; str "ICICI Bank"].

(** The inner [try { analysis = JSON.parse(aiResponse) } catch (e) { ... }]
    of the handler; the two ternaries of its catch block are outside any
    inner [try], so what they throw leaves this step. *)
Definition parseAiResponse (aiResponse creditScore : JsValue) : Exc JsValue :=
  match JSON_parse aiResponse with
  | Some analysis => Return analysis
  | None =>
      probability <~ approvalProbability creditScore ;;
      risk <~ riskLevel creditScore ;;
      Return (obj [ ("approvalProbability", num probability);
                    ("riskLevel", str risk);
                    ("recommendations", aiResponse);
                    ("suitableBanks", suitableBanks) ])
  end.

Definition checkEligibility (req_body : JsValue) : M Response :=
  try_catch
    (prompt <- lift (eligibilityPrompt req_body) ;;
     let creditScore := get req_body "creditScore" in
     let messages := eligibilityMessages prompt in
     result <- openAIClient_getChatCompletions
                 deployment messages eligibilityOptions ;;
     aiResponse <- lift (first_choice_content result) ;;
     analysis <- lift (parseAiResponse aiResponse creditScore) ;;
     ret (res_json (obj [ ("success", JBool true);
                          ("analysis", analysis);
                          ("aiPowered", JBool true) ])))
    (fun error =>
       creditScore <- lift (destructure req_body "creditScore") ;;
       probability <- lift (approvalProbability creditScore) ;;
       risk <- lift (riskLevel creditScore) ;;
       ret (res_json
         (obj [ ("success", JBool true);
                ("analysis",
                 obj [ ("approvalProbability", num probability);
                       ("riskLevel", str risk);
                       ("recommendations",
                        str "Based on your credit score and income, you have a good chance of approval.");
                       ("suitableBanks", suitableBanks) ]);
                ("aiPowered", JBool false);
                ("error", JString (Error.message error)) ]))).

(** ** POST /api/analyze-document *)

(** One entry of [result.keyValuePairs.slice(0, 10).map(...)]. *)
Definition pairEntry (pair : JsValue) : Exc JsValue :=
  key <~ getprop pair "key" ;;
  value <~ getprop pair "value" ;;
  confidence <~ getprop pair "confidence" ;;
  Return (obj [ ("key", or_else (optprop key "content") (str ""));
                ("value", or_else (optprop value "content") (str ""));
                ("confidence", or_else confidence (num 0)) ]).

(** [extractedData], from the object literal through the two conditional
    assignments.  [substring] is a method of strings only and [slice]
    followed by [map] of arrays only: a truthy content or keyValuePairs of
    another kind throws. *)
Definition extractedData (file : File.t) (result : JsValue) : Exc JsValue :=
  pages <~ getprop result "pages" ;;
  content <~ getprop result "content" ;;
  text <~ (if ToBoolean content then
             match content with
             | JString s => Return (JString (substring s 0 1000))
             | _ => Throw (TypeError_not_a_function "result.content.substring")
             end
           else Return (str "")) ;;
  keyValuePairs <~ getprop result "keyValuePairs" ;;
  entries <~ (if ToBoolean keyValuePairs then
                match keyValuePairs with
                | JArray pairs =>
                    mapped <~ sequence (map pairEntry (slice pairs 0 10)) ;;
                    Return (JArray mapped)
                | JString _ =>
                    Throw (TypeError_not_a_function
                             "result.keyValuePairs.slice(...).map")
                | _ =>
                    Throw (TypeError_not_a_function
                             "result.keyValuePairs.slice")
                end
              else Return (JArray [])) ;;
  Return (obj [ ("documentType", JString (File.mimetype file));
                ("pages", or_else (optprop pages "length") (num 0));
                ("text", text);
                ("keyValuePairs", entries);
                ("tables", JArray []) ]).

Definition analyzeDocument (req_file : option File.t) : M Response :=
  try_catch
    (match req_file with
     | None =>
         ret (res_status_json 400
                (obj [ ("success", JBool false);
                       ("error", str "No document uploaded") ]))
     | Some file =>
         let documentBuffer := File.buffer file in
         poller <- documentClient_beginAnalyzeDocument
                     (lit "prebuilt-document") documentBuffer ;;
         result <- poller_pollUntilDone poller ;;
         data <- lift (extractedData file result) ;;
         ret (res_json (obj [ ("success", JBool true);
                              ("data", data);
                              ("aiPowered", JBool true);
                              ("message", str "Document analyzed successfully") ]))
     end)
    (fun error =>
       ret (res_json
         (obj [ ("success", JBool true);
                ("data",
                 obj [ ("documentType",
                        or_else (match req_file with
                                 | Some file => JString (File.mimetype file)
                                 | None => JUndefined
                                 end) (str "unknown"));
                       ("pages", num 1);
                       ("text", str "Document received and validated");
                       ("message", str "Document appears clear and readable") ]);
                ("aiPowered", JBool false);
                ("error", JString (Error.message error)) ]))).

(** ** POST /api/loan-recommendations *)

Definition recommendationsPrompt (req_body : JsValue) : Exc jsstring :=
  purpose <~ destructure req_body "purpose" ;;
  income <~ destructure req_body "income" ;;
  creditScore <~ destructure req_body "creditScore" ;;
  purpose' <~ ToString purpose ;;
  income' <~ ToString income ;;
  creditScore' <~ ToString creditScore ;;
  Return
    (lit "Based on the following user profile, recommend the most suitable loan types:" ++ nl ++
     lit "    " ++ nl ++
     lit "Purpose: " ++ purpose' ++ nl ++
     lit "Monthly Income: " ++ rupee ep ++ income' ++ nl ++
     lit "Credit Score: " ++ creditScore' ++ nl ++
     nl ++
     lit "Recommend 3 most suitable loan types from: Personal Loan, Home Loan, Education Loan, Vehicle Loan, Business Loan, Gold Loan, Loan Against Property, PM Mudra Loan." ++ nl ++
     nl ++
     lit "For each recommendation, provide:" ++ nl ++
     lit "1. Loan type" ++ nl ++
     lit "2. Why it's suitable" ++ nl ++
     lit "3. Estimated amount range" ++ nl ++
     lit "4. Key benefits" ++ nl ++
     nl ++
     lit "Format as JSON array.").

Definition recommendationsMessages (prompt : jsstring)
  : list ChatRequestMessage.t :=
  [ {| ChatRequestMessage.role := lit "system";
       ChatRequestMessage.content :=
         lit "You are a financial advisor helping users choose the right loan products." |};
    {| ChatRequestMessage.role := lit "user";
       ChatRequestMessage.content := prompt |} ].

(** [{ maxTokens: 600, temperature: 0.7 }] *)
Definition recommendationsOptions : ChatOptions.t :=
  {| ChatOptions.maxTokens := 600; ChatOptions.temperature := 7 # 10 |}.

Definition loanRecommendations (req_body : JsValue) : M Response :=
  try_catch
    (prompt <- lift (recommendationsPrompt req_body) ;;
     let messages := recommendationsMessages prompt in
     result <- openAIClient_getChatCompletions
                 deployment messages recommendationsOptions ;;
     aiResponse <- lift (first_choice_content result) ;;
     ret (res_json (obj [ ("success", JBool true);
                          ("recommendations", aiResponse);
                          ("aiPowered", JBool true) ])))
    (fun error =>
       ret (res_json
         (obj [ ("success", JBool true);
                ("recommendations",
                 JArray
                   [ obj [ ("loanType", str "Personal Loan");
                           ("reason",
                            str "Flexible and quick approval for general purposes");
                           ("amountRange",
                            JString (rupee ep ++ lit "50,000 - "
                                     ++ rupee ep ++ lit "25,00,000"));
                           ("benefits",
                            JArray [ str "No collateral";
                                     str "Quick disbursement";
                                     str "Flexible tenure" ]) ] ]);
                ("aiPowered", JBool false) ]))).

End Handlers.

(* ================================================================== *)
(** * Results of the shape the document library declares *)
(* ================================================================== *)

Module DocumentPage.
Record t := { pageNumber : Z }.
End DocumentPage.

Module KeyValueElement.
Record t := { content : jsstring }.
End KeyValueElement.

Module KeyValuePair.
Record t := {
  key : option KeyValueElement.t;
  value : option KeyValueElement.t;
  confidence : option number
}.
End KeyValuePair.

(** An analysis result as the library types it: a page collection, the
    extracted content and the key-value pairs, each possibly absent. *)
Module AnalyzeResult.
Record t := {
  pages : option (list DocumentPage.t);
  content : option jsstring;
  keyValuePairs : option (list KeyValuePair.t)
}.
End AnalyzeResult.

(** The value such a result is; an absent field is a missing property. *)
Definition raw_field {A} (k : string) (f : A -> JsValue) (o : option A)
  : list (jsstring * JsValue) :=
  match o with
  | Some a => [(lit k, f a)]
  | None => []
  end.

Definition raw_element (e : KeyValueElement.t) : JsValue :=
  obj [("content", JString (KeyValueElement.content e))].

Definition raw_pair (pair : KeyValuePair.t) : JsValue :=
  JObject (raw_field "key" raw_element (KeyValuePair.key pair)
           ++ raw_field "value" raw_element (KeyValuePair.value pair)
           ++ raw_field "confidence" JNumber (KeyValuePair.confidence pair)).

Definition raw_page (page : DocumentPage.t) : JsValue :=
  obj [("pageNumber", num (DocumentPage.pageNumber page))].

Definition raw_result (result : AnalyzeResult.t) : JsValue :=
  JObject (raw_field "pages" (fun ps => JArray (map raw_page ps))
             (AnalyzeResult.pages result)
           ++ raw_field "content" JString (AnalyzeResult.content result)
           ++ raw_field "keyValuePairs" (fun ps => JArray (map raw_pair ps))
                (AnalyzeResult.keyValuePairs result)).

(* ================================================================== *)
(** * What the specification says, in its own terms *)
(* ================================================================== *)

(** The boundary table of the credit heuristic, row by row. *)
Definition boundary_table (score : Z) : Z * string :=
  if 750 <=? score then (90, "Low")
  else if 700 <=? score then (75, "Low")
  else if 650 <=? score then (55, "Medium")
  else if 600 <=? score then (35, "Medium")
  else (35, "High").

(** An analysis with the four fields of an EligibilityAnalysis. *)
Definition fully_populated (analysis : JsValue) : bool :=
  has analysis "approvalProbability" && has analysis "riskLevel"
  && has analysis "recommendations" && has analysis "suitableBanks".

(** A result with the five fields of a DocumentExtraction. *)
Definition fully_formed (data : JsValue) : bool :=
  has data "documentType" && has data "pages" && has data "text"
  && has data "keyValuePairs" && has data "tables".

(** The text of a key or value element, empty when the element is missing. *)
Definition content_or_empty (e : option KeyValueElement.t) : jsstring :=
  match e with
  | Some x => KeyValueElement.content x
  | None => []
  end.

(** The entry made of a pair of the declared shape. *)
Definition entry_of (pair : KeyValuePair.t) : JsValue :=
  obj [ ("key", JString (content_or_empty (KeyValuePair.key pair)));
        ("value", JString (content_or_empty (KeyValuePair.value pair)));
        ("confidence",
         or_else (match KeyValuePair.confidence pair with
                  | Some c => JNumber c
                  | None => JUndefined
                  end) (num 0)) ].

(** The data extracted from a result of the declared shape. *)
Definition extraction_of (file : File.t) (result : AnalyzeResult.t) : JsValue :=
  obj [ ("documentType", JString (File.mimetype file));
        ("pages",
         num (Z.of_nat (match AnalyzeResult.pages result with
                        | Some ps => List.length ps
                        | None => 0%nat
                        end)));
        ("text",
         JString (firstn 1000 (match AnalyzeResult.content result with
                               | Some c => c
                               | None => []
                               end)));
        ("keyValuePairs",
         JArray (map entry_of
                   (firstn 10 (match AnalyzeResult.keyValuePairs result with
                               | Some pairs => pairs
                               | None => []
                               end))));
        ("tables", JArray []) ].

(** The answers of the document handler. *)
Definition document_success (data : JsValue) : Response :=
  res_json (obj [ ("success", JBool true);
                  ("data", data);
                  ("aiPowered", JBool true);
                  ("message", str "Document analyzed successfully") ]).

(** The analysis the heuristic synthesises around a narrative. *)
Definition heuristic_analysis (probability : Z) (risk : string)
    (recommendations : JsValue) : JsValue :=
  obj [ ("approvalProbability", num probability);
        ("riskLevel", str risk);
        ("recommendations", recommendations);
        ("suitableBanks",
         JArray [str "HDFC Bank"; str "SBI"; str "ICICI Bank"]) ].

(** The narrative of the degraded eligibility answer. *)
Definition degraded_recommendations : JsValue :=
  str "Based on your credit score and income, you have a good chance of approval.".

(** The attempt of a request whose prompt was built fails with [error]:
    the call rejects, or its reply has no first message. *)
Definition attempt_fails (world : World) (prompt : jsstring) (error : Error.t)
  : Prop :=
  getChatCompletions world (deployment world)
    (eligibilityMessages prompt) eligibilityOptions = Throw error
  \/ exists result : ChatCompletions.t,
       getChatCompletions world (deployment world)
         (eligibilityMessages prompt) eligibilityOptions = Return result
       /\ first_choice_content result = Throw error.

(** The risk tiers in order of severity. *)
Definition risk_rank (risk : string) : Z :=
  if String.eqb risk "Low" then 0
  else if String.eqb risk "Medium" then 1
  else 2.

(** The one recommendation of the fallback answer. *)
Definition fallback_recommendations (ep : EntryPoint) : JsValue :=
  JArray
    [ obj [ ("loanType", str "Personal Loan");
            ("reason", str "Flexible and quick approval for general purposes");
            ("amountRange",
             JString (rupee ep ++ lit "50,000 - " ++ rupee ep ++ lit "25,00,000"));
            ("benefits",
             JArray [ str "No collateral"; str "Quick disbursement";
                      str "Flexible tenure" ]) ] ].

(* ================================================================== *)
(** * Worlds and requests for the closed examples *)
(* ================================================================== *)

Definition upstream_error : Error.t :=
  {| Error.message := lit "connect ETIMEDOUT" |}.

(** Both services reject every call. *)
Definition failing_world : World :=
  {| AZURE_OPENAI_DEPLOYMENT := None;
     getChatCompletions := fun _ _ _ => Throw upstream_error;
     beginAnalyzeDocument := fun _ _ => Throw upstream_error |}.

(** The chat service answers every call with one choice carrying [text];
    the document service resolves to [result]. *)
Definition replying_world (text result : JsValue) : World :=
  {| AZURE_OPENAI_DEPLOYMENT := None;
     getChatCompletions := fun _ _ _ =>
       Return {| ChatCompletions.choices :=
                   [ {| ChatChoice.message :=
                          Some {| ChatResponseMessage.content := text |} |} ] |};
     beginAnalyzeDocument := fun _ _ =>
       Return {| Poller.pollUntilDone := Return result |} |}.


(** The document service accepts the document, then the polling rejects. *)
Definition poll_failing_world : World :=
  {| AZURE_OPENAI_DEPLOYMENT := Some [];
     getChatCompletions := fun _ _ _ => Throw upstream_error;
     beginAnalyzeDocument := fun _ _ =>
       Return {| Poller.pollUntilDone := Throw upstream_error |} |}.

Definition sample_request (loanType : string) (amount creditScore : Z) : JsValue :=
  obj [ ("loanType", str loanType);
        ("amount", num amount);
        ("income", num 50000);
        ("creditScore", num creditScore);
        ("employment", str "Salaried");
        ("existingLoans", JBool false) ].

(** A request whose credit score is an object with a [toString] key, as
    the JSON text [{"creditScore":{"toString":1}}] decodes. *)
Definition unconvertible_score_request : JsValue :=
  obj [ ("creditScore", obj [("toString", num 1)]) ].

(** A request whose loan type alone has no string form. *)
Definition unconvertible_type_request : JsValue :=
  obj [ ("loanType", obj [("toString", num 1)]);
        ("amount", num 500000);
        ("income", num 50000);
        ("creditScore", num 720);
        ("employment", str "Salaried");
        ("existingLoans", JBool false) ].

Definition sample_file : File.t :=
  {| File.buffer := [Byte.x25; Byte.x50; Byte.x44; Byte.x46];
     File.mimetype := lit "application/pdf" |}.

Definition sample_pair (k v : string) : KeyValuePair.t :=
  {| KeyValuePair.key := Some {| KeyValueElement.content := lit k |};
     KeyValuePair.value := Some {| KeyValueElement.content := lit v |};
     KeyValuePair.confidence := Some (Fin (9 # 10)) |}.

(** Three pages, 1200 characters of text and twelve key-value pairs. *)
Definition sample_result : AnalyzeResult.t :=
  {| AnalyzeResult.pages :=
       Some [ {| DocumentPage.pageNumber := 1 |};
              {| DocumentPage.pageNumber := 2 |};
              {| DocumentPage.pageNumber := 3 |} ];
     AnalyzeResult.content := Some (repeat 120%N 1200);
     AnalyzeResult.keyValuePairs :=
       Some (map (fun k => sample_pair k "v")
               ["k1"; "k2"; "k3"; "k4"; "k5"; "k6";
                "k7"; "k8"; "k9"; "k10"; "k11"; "k12"]) |}.

(** A result outside the declared shape: its list of pairs holds a null. *)
Definition null_pair_result : JsValue :=
  obj [ ("content", str "Invoice");
        ("keyValuePairs", JArray [JNull]) ].

(** A JSON text written with single quotes in place of the double ones. *)
Definition dq (s : string) : jsstring :=
  map (fun c => if N.eqb c 39 then 34%N else c) (lit s).



(** The [analysis] and [data] fields of a handler's answer. *)
Definition analysis_of (r : Exc Response) : JsValue :=
  match r with
  | Return resp => get (body resp) "analysis"
  | Throw _ => JUndefined
  end.

Definition data_of (r : Exc Response) : JsValue :=
  match r with
  | Return resp => get (body resp) "data"
  | Throw _ => JUndefined
  end.

(** The user prompt carried by the chat call a handler made. *)
Definition user_prompt (calls : list Call) : jsstring :=
  match calls with
  | [CallGetChatCompletions _ [_; m] _] => ChatRequestMessage.content m
  | _ => []
  end.

(* ================================================================== *)
(** * GET /api/health and the port *)
(* ================================================================== *)

(** The environment variables the health check and the port read. *)
Record ProcessEnv := {
  AZURE_OPENAI_API_KEY : option jsstring;
  AZURE_DOCS_API_KEY : option jsstring;
  PORT_variable : option jsstring;
  NODE_ENV : option jsstring
}.

(** [!!process.env.X]: set, and not the empty string. *)
Definition env_set (v : option jsstring) : bool :=
  match v with
  | Some (_ :: _) => true
  | _ => false
  end.

(** [const PORT = process.env.PORT || 5000] in [server.js], [|| 3000] in
    [integrated-server.js]: the variable's text when it is set, a number
    otherwise. *)
Definition PORT (ep : EntryPoint) (env : ProcessEnv) : JsValue :=
  match PORT_variable env with
  | Some (c :: s) => JString (c :: s)
  | _ => match ep with
         | ServerJs => num 5000
         | IntegratedServerJs => num 3000
         end
  end.

Definition health (ep : EntryPoint) (env : ProcessEnv) : M Response :=
  match ep with
  | ServerJs =>
      ret (res_json
        (obj [ ("status", str "ok");
               ("message", str "CapNest Backend API is running");
               ("azureServices",
                obj [ ("openai", JBool (env_set (AZURE_OPENAI_API_KEY env)));
                      ("documentIntelligence",
                       JBool (env_set (AZURE_DOCS_API_KEY env))) ]) ]))
  | IntegratedServerJs =>
      ret (res_json
        (obj [ ("status", str "ok");
               ("message", str "CapNest is running with Azure AI");
               ("azureServices",
                obj [ ("openai", JBool (env_set (AZURE_OPENAI_API_KEY env)));
                      ("documentIntelligence",
                       JBool (env_set (AZURE_DOCS_API_KEY env))) ]);
               ("server",
                obj [ ("port", PORT ep env);
                      ("environment",
                       JString (env_or (NODE_ENV env) (lit "development"))) ]) ]))
  end.


Definition sample_env : ProcessEnv :=
  {| AZURE_OPENAI_API_KEY := Some (lit "0123456789abcdef");
     AZURE_DOCS_API_KEY := Some [];
     PORT_variable := Some (lit "8080");
     NODE_ENV := None |}.

(* ================================================================== *)
(** * Properties *)
(* ================================================================== *)

(** ** JSON.parse does not depend on its fuel *)

Section Fuel.
Local Open Scope nat_scope.

Lemma skip_ws_length (s : jsstring) : List.length (skip_ws s) <= List.length s.
Proof.
  induction s as [|c s IH]; simpl; [lia|].
  destruct (is_ws c); simpl; lia.
Qed.

Lemma span_length (p : N -> bool) (s a b : jsstring) :
  span p s = (a, b) -> List.length b <= List.length s.
Proof.
  revert a b. induction s as [|c s IH]; simpl; intros a b H.
  - injection H as <- <-. simpl. lia.
  - destruct (p c).
    + destruct (span p s) as [a' b'] eqn:E. injection H as <- <-.
      specialize (IH _ _ eq_refl). lia.
    + injection H as <- <-. simpl. lia.
Qed.

Lemma strip_prefix_length (w s r : jsstring) :
  strip_prefix w s = Some r -> List.length r + List.length w = List.length s.
Proof.
  revert s. induction w as [|a w IH]; intros s H; simpl in H.
  - injection H as <-. simpl. lia.
  - destruct s as [|b s]; [discriminate|].
    destruct (N.eqb a b); [|discriminate].
    apply IH in H. simpl. lia.
Qed.

Lemma parse_chars_length (s acc text r : jsstring) :
  parse_chars s acc = Some (text, r) -> List.length r < List.length s.
Proof.
  assert (H : forall n s acc, List.length s <= n ->
              parse_chars s acc = Some (text, r) ->
              List.length r < List.length s).
  { clear s acc. induction n as [|n IH]; intros s acc Hle H.
    - destruct s; [discriminate|simpl in Hle; lia].
    - destruct s as [|c s]; [discriminate|]. simpl in Hle. simpl in H.
      repeat match type of H with
             | context [if ?b then _ else _] => destruct b
             | context [match ?x with _ => _ end] => destruct x eqn:?
             end;
        try discriminate;
        try (injection H as <- <-; simpl; lia);
        try (apply IH in H; simpl in *; lia). }
  apply (H (List.length s)). lia.
Qed.

Lemma span_lengths (p : N -> bool) (s a b : jsstring) :
  span p s = (a, b) -> List.length a + List.length b = List.length s.
Proof.
  revert a b. induction s as [|c s IH]; simpl; intros a b H.
  - injection H as <- <-. reflexivity.
  - destruct (p c).
    + destruct (span p s) as [a' b'] eqn:E. injection H as <- <-.
      specialize (IH _ _ eq_refl). simpl. lia.
    + injection H as <- <-. simpl. lia.
Qed.

Lemma scan_opt_length (p : N -> bool) (s a r : jsstring) :
  scan_opt p s = (a, r) -> List.length r <= List.length s.
Proof.
  unfold scan_opt. destruct s as [|c s]; [|destruct (p c)];
    intros [= <- <-]; simpl; lia.
Qed.

Lemma scan_digits_length (s ds r : jsstring) :
  scan_digits s = Some (ds, r) -> List.length r < List.length s.
Proof.
  unfold scan_digits. destruct (span is_digit s) as [a b] eqn:E.
  apply span_lengths in E.
  destruct a; [discriminate|]. intros [= <- <-]. simpl in E. lia.
Qed.

Lemma scan_int_length (s ds r : jsstring) :
  scan_int s = Some (ds, r) -> List.length r < List.length s.
Proof.
  unfold scan_int. destruct s as [|c s]; [discriminate|].
  destruct (N.eqb c 48).
  - intros [= <- <-]. simpl. lia.
  - apply scan_digits_length.
Qed.

Lemma scan_frac_length (s ds r : jsstring) :
  scan_frac s = Some (ds, r) -> List.length r <= List.length s.
Proof.
  unfold scan_frac. destruct s as [|d s]; [intros [= <- <-]; simpl; lia|].
  destruct (N.eqb d 46).
  - destruct (scan_digits s) as [[a b]|] eqn:E; [|discriminate].
    apply scan_digits_length in E. intros [= <- <-]. simpl. lia.
  - intros [= <- <-]. lia.
Qed.

Lemma scan_exp_length (s ds r : jsstring) :
  scan_exp s = Some (ds, r) -> List.length r <= List.length s.
Proof.
  unfold scan_exp. destruct s as [|e s]; [intros [= <- <-]; simpl; lia|].
  destruct (N.eqb e 101 || N.eqb e 69).
  - destruct (scan_opt _ s) as [sg r1] eqn:E1. apply scan_opt_length in E1.
    destruct (scan_digits r1) as [[a b]|] eqn:E2; [|discriminate].
    apply scan_digits_length in E2. intros [= <- <-]. simpl. lia.
  - intros [= <- <-]. lia.
Qed.

Lemma scan_number_length (s text r : jsstring) :
  scan_number s = Some (text, r) -> List.length r < List.length s.
Proof.
  unfold scan_number.
  destruct (scan_opt _ s) as [sign s1] eqn:E1. apply scan_opt_length in E1.
  destruct (scan_int s1) as [[int s2]|] eqn:E2; [|discriminate].
  apply scan_int_length in E2.
  destruct (scan_frac s2) as [[fr s3]|] eqn:E3; [|discriminate].
  apply scan_frac_length in E3.
  destruct (scan_exp s3) as [[ex s4]|] eqn:E4; [|discriminate].
  apply scan_exp_length in E4.
  intros [= <- <-]. lia.
Qed.

Lemma parse_literal_length {rt : Runtime} (s r : jsstring) (v : JsValue) :
  s <> [] -> parse_literal s = Some (v, r) -> List.length r < List.length s.
Proof.
  unfold parse_literal. intros Hs.
  destruct (strip_prefix (lit "null") s) eqn:E1.
  { apply strip_prefix_length in E1. intros [= <- <-]. simpl in E1. lia. }
  destruct (strip_prefix (lit "true") s) eqn:E2.
  { apply strip_prefix_length in E2. intros [= <- <-]. simpl in E2. lia. }
  destruct (strip_prefix (lit "false") s) eqn:E3.
  { apply strip_prefix_length in E3. intros [= <- <-]. simpl in E3. lia. }
  destruct (scan_number s) as [[text r']|] eqn:E4; [|discriminate].
  apply scan_number_length in E4. intros [= <- <-]. exact E4.
Qed.

Ltac simplify_eqs :=
  repeat match goal with
         | E : (_, _) = (_, _) |- _ => injection E; clear E; intros; subst
         | E : Some _ = Some _ |- _ => injection E; clear E; intros; subst
         | E : Some _ = None |- _ => discriminate E
         | E : None = Some _ |- _ => discriminate E
         end.

Ltac break_match_hyp :=
  match goal with
  | H : context [match ?x with _ => _ end] |- _ => destruct x eqn:?
  end.

Ltac note_lengths IHv IHe IHm :=
  repeat match goal with
         | H : parse_value _ _ = Some _ |- _ => apply IHv in H
         | H : parse_elements _ _ _ = Some _ |- _ => apply IHe in H
         | H : parse_members _ _ _ = Some _ |- _ => apply IHm in H
         | H : parse_literal _ = Some _ |- _ =>
             apply parse_literal_length in H; [|discriminate]
         | H : parse_chars _ _ = Some _ |- _ => apply parse_chars_length in H
         | H : skip_ws ?s = _ |- _ =>
             let L := fresh "L" in
             pose proof (skip_ws_length s) as L; rewrite H in L; clear H
         end.

Lemma parse_lengths {rt : Runtime} (fuel : nat) :
  (forall s v r, parse_value fuel s = Some (v, r) ->
                 List.length r < List.length s)
  /\ (forall s acc v r, parse_elements fuel s acc = Some (v, r) ->
                        List.length r < List.length s)
  /\ (forall s acc v r, parse_members fuel s acc = Some (v, r) ->
                        List.length r < List.length s).
Proof.
  induction fuel as [|fuel (IHv & IHe & IHm)].
  - repeat split; intros; discriminate.
  - split; [|split]; intros; simpl in *;
      repeat break_match_hyp; simplify_eqs;
      note_lengths IHv IHe IHm; simpl in *; lia.
Qed.

Ltac lengths :=
  repeat match goal with
         | H : parse_value ?f _ = Some _ |- _ =>
             apply (proj1 (parse_lengths f)) in H
         | H : parse_chars _ _ = Some _ |- _ => apply parse_chars_length in H
         | H : skip_ws ?s = _ |- _ =>
             let L := fresh "L" in
             pose proof (skip_ws_length s) as L; rewrite H in L; clear H
         end;
  simpl in *; lia.

Lemma parse_fuel_stable {rt : Runtime} (f1 f2 : nat) :
  (forall s, 2 * List.length s + 1 <= f1 -> 2 * List.length s + 1 <= f2 ->
             parse_value f1 s = parse_value f2 s)
  /\ (forall s acc,
         2 * List.length s + 2 <= f1 -> 2 * List.length s + 2 <= f2 ->
         parse_elements f1 s acc = parse_elements f2 s acc)
  /\ (forall s acc,
         2 * List.length s + 2 <= f1 -> 2 * List.length s + 2 <= f2 ->
         parse_members f1 s acc = parse_members f2 s acc).
Proof.
  revert f2. induction f1 as [|f1 IH]; intros f2.
  { repeat split; intros; lia. }
  destruct f2 as [|f2]; [repeat split; intros; lia|].
  destruct (IH f2) as (IHv & IHe & IHm). clear IH.
  split; [|split].
  - intros s H1 H2. simpl.
    destruct (skip_ws s) as [|c r] eqn:Hs; [reflexivity|].
    destruct (skip_ws r) as [|c' r'] eqn:Hr.
    + reflexivity.
    + destruct (N.eqb c 123).
      { destruct (N.eqb c' 125); [reflexivity|]. apply IHm; lengths. }
      destruct (N.eqb c 91); [|reflexivity].
      destruct (N.eqb c' 93); [reflexivity|]. apply IHe; lengths.
  - intros s acc H1 H2. simpl.
    rewrite (IHv s) by lia.
    destruct (parse_value f2 s) as [[v r]|] eqn:Hv; [|reflexivity].
    destruct (skip_ws r) as [|c r'] eqn:Hr; [reflexivity|].
    destruct (N.eqb c 44); [|reflexivity].
    apply IHe; lengths.
  - intros s acc H1 H2. simpl.
    destruct (skip_ws s) as [|c r] eqn:Hs; [reflexivity|].
    destruct (N.eqb c 34); [|reflexivity].
    destruct (parse_chars r []) as [[k r1]|] eqn:Hk; [|reflexivity].
    destruct (skip_ws r1) as [|c1 r2] eqn:Hr1; [reflexivity|].
    destruct (N.eqb c1 58); [|reflexivity].
    rewrite (IHv r2) by lengths.
    destruct (parse_value f2 r2) as [[v r3]|] eqn:Hv; [|reflexivity].
    destruct (skip_ws r3) as [|c3 r4] eqn:Hr3; [reflexivity|].
    destruct (N.eqb c3 44); [|reflexivity].
    apply IHm; lengths.
Qed.

(** Fuel beyond what [JSON_parse] gives changes nothing. *)
Lemma JSON_parse_fuel {rt : Runtime} (text : JsValue) (s : jsstring) (fuel : nat) :
  ToString text = Return s ->
  2 * List.length s + 2 <= fuel ->
  JSON_parse text
  = match parse_value fuel s with
    | Some (v, r) => match skip_ws r with [] => Some v | _ => None end
    | None => None
    end.
Proof.
  intros Hs H. unfold JSON_parse. rewrite Hs.
  now rewrite (proj1 (parse_fuel_stable (2 * List.length s + 2) fuel) s) by lia.
Qed.

End Fuel.


(** ** The credit heuristic *)

Lemma ge_integer {rt : Runtime} (z k : Z) : ge (num z) k = Return (k <=? z).
Proof.
  unfold ge, num, num_of_Z; simpl. f_equal.
  destruct (Z.leb_spec k z) as [H | H].
  - apply Qle_bool_iff. now rewrite <- Zle_Qle.
  - destruct (Qle_bool (inject_Z k) (inject_Z z)) eqn:E; [|reflexivity].
    apply Qle_bool_iff in E. rewrite <- Zle_Qle in E. lia.
Qed.

Lemma heuristic_on_integers {rt : Runtime} (score : Z) :
  approvalProbability (num score) = Return (fst (boundary_table score))
  /\ riskLevel (num score) = Return (snd (boundary_table score)).
Proof.
  unfold approvalProbability, riskLevel, boundary_table.
  rewrite !ge_integer. cbn [bindE].
  destruct (Z.leb_spec 750 score), (Z.leb_spec 700 score),
    (Z.leb_spec 650 score), (Z.leb_spec 600 score);
    cbn [bindE]; try (split; reflexivity); lia.
Qed.

Lemma ge_of_number {rt : Runtime} (v : JsValue) (n : number) (k : Z) :
  ToNumber v = Return n ->
  ge v k = Return (match n with
                   | NaN => false
                   | PInf => true
                   | NInf => false
                   | Fin q => Qle_bool (inject_Z k) q
                   end).
Proof. unfold ge. now intros ->. Qed.

Lemma ge_throws {rt : Runtime} (v : JsValue) (e : Error.t) (k : Z) :
  ToNumber v = Throw e -> ge v k = Throw e.
Proof. unfold ge. now intros ->. Qed.

(** C1: over every integer credit score, the two ternaries of the heuristic
    return the pair of the boundary table, row for row, and in particular
    on either side of each of the four cuts. *)
Theorem C1_heuristic_matches_boundary_table {rt : Runtime} :
  (forall score : Z,
      (approvalProbability (num score), riskLevel (num score))
      = if 750 <=? score then (Return 90, Return "Low")
        else if 700 <=? score then (Return 75, Return "Low")
        else if 650 <=? score then (Return 55, Return "Medium")
        else if 600 <=? score then (Return 35, Return "Medium")
        else (Return 35, Return "High"))
  /\ (approvalProbability (num 749), riskLevel (num 749)) = (Return 75, Return "Low")
  /\ (approvalProbability (num 750), riskLevel (num 750)) = (Return 90, Return "Low")
  /\ (approvalProbability (num 699), riskLevel (num 699)) = (Return 55, Return "Medium")
  /\ (approvalProbability (num 700), riskLevel (num 700)) = (Return 75, Return "Low")
  /\ (approvalProbability (num 649), riskLevel (num 649)) = (Return 35, Return "Medium")
  /\ (approvalProbability (num 650), riskLevel (num 650)) = (Return 55, Return "Medium")
  /\ (approvalProbability (num 599), riskLevel (num 599)) = (Return 35, Return "High")
  /\ (approvalProbability (num 600), riskLevel (num 600)) = (Return 35, Return "Medium").
Proof.
  assert (H : forall score : Z,
             (approvalProbability (num score), riskLevel (num score))
             = (Return (fst (boundary_table score)),
                Return (snd (boundary_table score)))).
  { intros score. destruct (heuristic_on_integers score) as [-> ->].
    reflexivity. }
  split.
  - intros score. rewrite H. unfold boundary_table.
    destruct (750 <=? score), (700 <=? score), (650 <=? score),
      (600 <=? score); reflexivity.
  - repeat split; rewrite H; reflexivity.
Qed.

Lemma ToString_gives_ToNumber {rt : Runtime} (v : JsValue) (s : jsstring) :
  ToString v = Return s -> exists n : number, ToNumber v = Return n.
Proof.
  intros H. destruct v as [| |[|]|n|s'|xs|props];
    try (eexists; reflexivity);
    unfold ToNumber; rewrite H; eexists; reflexivity.
Qed.

Lemma heuristic_of_number {rt : Runtime} (creditScore : JsValue) (n : number) :
  ToNumber creditScore = Return n ->
  exists (probability : Z) (risk : string),
    approvalProbability creditScore = Return probability
    /\ riskLevel creditScore = Return risk
    /\ In (probability, risk)
          [ (90, "Low"); (75, "Low"); (55, "Medium"); (35, "Medium");
            (35, "High") ].
Proof.
  intros H. unfold approvalProbability, riskLevel.
  rewrite !(ge_of_number creditScore n _ H). cbn [bindE].
  destruct n as [| | |q]; cbn [bindE];
    try (eexists _, _; split; [reflexivity|split; [reflexivity|cbn; tauto]]).
  assert (W : forall k1 k2 : Z, k1 <= k2 ->
                Qle_bool (inject_Z k2) q = true ->
                Qle_bool (inject_Z k1) q = true).
  { intros k1 k2 Hk. rewrite !Qle_bool_iff. intros Hq.
    apply Qle_trans with (inject_Z k2); [|exact Hq]. now rewrite <- Zle_Qle. }
  pose proof (W 700 750 ltac:(lia)) as W1.
  pose proof (W 650 700 ltac:(lia)) as W2.
  pose proof (W 600 650 ltac:(lia)) as W3.
  destruct (Qle_bool (inject_Z 750) q), (Qle_bool (inject_Z 700) q),
    (Qle_bool (inject_Z 650) q), (Qle_bool (inject_Z 600) q);
    cbn [bindE];
    try (specialize (W1 eq_refl); discriminate W1);
    try (specialize (W2 eq_refl); discriminate W2);
    try (specialize (W3 eq_refl); discriminate W3);
    eexists _, _; (split; [reflexivity|split; [reflexivity|cbn; tauto]]).
Qed.

Lemma heuristic_throws {rt : Runtime} (creditScore : JsValue) (e : Error.t) :
  ToNumber creditScore = Throw e ->
  approvalProbability creditScore = Throw e /\ riskLevel creditScore = Throw e.
Proof.
  intros H. unfold approvalProbability, riskLevel.
  now rewrite !(ge_throws creditScore e _ H).
Qed.

Lemma heuristic_on_NaN {rt : Runtime} (creditScore : JsValue) :
  ToNumber creditScore = Return NaN ->
  (approvalProbability creditScore, riskLevel creditScore)
  = (Return 35, Return "High").
Proof.
  intros H. unfold approvalProbability, riskLevel.
  now rewrite !(ge_of_number creditScore NaN _ H).
Qed.

(** ** Reading the request *)

Lemma destructure_all (req_body : JsValue) (k : string) (v : JsValue) :
  destructure req_body k = Return v ->
  forall k' : string, destructure req_body k' = Return (get req_body k').
Proof. destruct req_body; try discriminate; reflexivity. Qed.

Lemma eligibilityPrompt_built {rt : Runtime} (ep : EntryPoint)
    (req_body : JsValue) (prompt : jsstring) :
  eligibilityPrompt ep req_body = Return prompt ->
  (forall k : string, destructure req_body k = Return (get req_body k))
  /\ exists loanType amount income creditScore employment : jsstring,
       ToString (get req_body "loanType") = Return loanType
       /\ ToString (get req_body "amount") = Return amount
       /\ ToString (get req_body "income") = Return income
       /\ ToString (get req_body "creditScore") = Return creditScore
       /\ ToString (get req_body "employment") = Return employment
       /\ prompt
          = lit "You are a loan eligibility expert. Analyze this loan application:" ++ nl ++
            lit "    " ++ nl ++
            lit "Loan Type: " ++ loanType ++ nl ++
            lit "Requested Amount: " ++ rupee ep ++ amount ++ nl ++
            lit "Monthly Income: " ++ rupee ep ++ income ++ nl ++
            lit "Credit Score: " ++ creditScore ++ nl ++
            lit "Employment: " ++ employment ++ nl ++
            lit "Existing Loans: "
              ++ (if ToBoolean (get req_body "existingLoans")
                  then lit "Yes" else lit "No") ++ nl ++
            nl ++
            lit "Provide a detailed eligibility analysis with:" ++ nl ++
            lit "1. Approval probability (percentage)" ++ nl ++
            lit "2. Risk assessment (Low/Medium/High)" ++ nl ++
            lit "3. Recommendations" ++ nl ++
            lit "4. Suitable banks" ++ nl ++
            nl ++
            lit "Format as JSON with keys: approvalProbability, riskLevel, recommendations, suitableBanks".
Proof.
  unfold eligibilityPrompt. intros H.
  destruct (destructure req_body "loanType") as [v|e] eqn:Hd; [|discriminate H].
  pose proof (destructure_all req_body _ _ Hd) as Hall.
  rewrite (Hall "loanType") in Hd. injection Hd as <-.
  rewrite !Hall in H. cbn [bindE] in H.
  split; [exact Hall|].
  destruct (ToString (get req_body "loanType")) as [s1|] ; [|discriminate H].
  destruct (ToString (get req_body "amount")) as [s2|] ; [|discriminate H].
  destruct (ToString (get req_body "income")) as [s3|] ; [|discriminate H].
  destruct (ToString (get req_body "creditScore")) as [s4|] ; [|discriminate H].
  destruct (ToString (get req_body "employment")) as [s5|] ; [|discriminate H].
  cbn [bindE] in H. injection H as <-.
  exists s1, s2, s3, s4, s5. repeat split.
Qed.

Lemma eligibilityPrompt_score {rt : Runtime} (ep : EntryPoint)
    (req_body : JsValue) (prompt : jsstring) :
  eligibilityPrompt ep req_body = Return prompt ->
  destructure req_body "creditScore" = Return (get req_body "creditScore")
  /\ exists (probability : Z) (risk : string),
       approvalProbability (get req_body "creditScore") = Return probability
       /\ riskLevel (get req_body "creditScore") = Return risk.
Proof.
  intros H. apply eligibilityPrompt_built in H.
  destruct H as (Hall & _ & _ & _ & s & _ & _ & _ & _ & Hs & _).
  split; [apply Hall|].
  destruct (ToString_gives_ToNumber _ _ Hs) as (n & Hn).
  destruct (heuristic_of_number _ _ Hn) as (p & r & Hp & Hr & _).
  now exists p, r.
Qed.

(** ** The parsing of the chat reply *)

Lemma parseAiResponse_decoded {rt : Runtime} (aiResponse creditScore v : JsValue) :
  JSON_parse aiResponse = Some v ->
  parseAiResponse aiResponse creditScore = Return v.
Proof. unfold parseAiResponse. now intros ->. Qed.

Lemma parseAiResponse_fallback {rt : Runtime} (aiResponse creditScore : JsValue) :
  JSON_parse aiResponse = None ->
  parseAiResponse aiResponse creditScore
  = (probability <~ approvalProbability creditScore ;;
     risk <~ riskLevel creditScore ;;
     Return (heuristic_analysis probability risk aiResponse)).
Proof. unfold parseAiResponse. now intros ->. Qed.

Lemma parseAiResponse_returns {rt : Runtime} (aiResponse creditScore : JsValue)
    (probability : Z) (risk : string) :
  approvalProbability creditScore = Return probability ->
  riskLevel creditScore = Return risk ->
  exists analysis : JsValue,
    parseAiResponse aiResponse creditScore = Return analysis.
Proof.
  intros Hp Hr. unfold parseAiResponse.
  destruct (JSON_parse aiResponse); [eexists; reflexivity|].
  rewrite Hp, Hr. eexists; reflexivity.
Qed.



(** ** The runs of the eligibility handler *)

Lemma checkEligibility_succeeded {rt : Runtime} (ep : EntryPoint) (world : World)
    (req_body : JsValue) (prompt : jsstring) (result : ChatCompletions.t)
    (aiResponse analysis : JsValue) :
  eligibilityPrompt ep req_body = Return prompt ->
  getChatCompletions world (deployment world)
    (eligibilityMessages prompt) eligibilityOptions = Return result ->
  first_choice_content result = Return aiResponse ->
  parseAiResponse aiResponse (get req_body "creditScore") = Return analysis ->
  run (checkEligibility ep world req_body)
  = (Return (res_json (obj [ ("success", JBool true);
                             ("analysis", analysis);
                             ("aiPowered", JBool true) ])),
     [CallGetChatCompletions (deployment world)
        (eligibilityMessages prompt) eligibilityOptions]).
Proof.
  intros Hprompt Hcall Hchoice Hparse.
  unfold run, checkEligibility, try_catch, bind,
    openAIClient_getChatCompletions, await, lift, ret.
  rewrite Hprompt, Hcall, Hchoice, Hparse. reflexivity.
Qed.

Lemma checkEligibility_degraded {rt : Runtime} (ep : EntryPoint) (world : World)
    (req_body : JsValue) (prompt : jsstring) (error : Error.t)
    (probability : Z) (risk : string) :
  eligibilityPrompt ep req_body = Return prompt ->
  attempt_fails world prompt error ->
  approvalProbability (get req_body "creditScore") = Return probability ->
  riskLevel (get req_body "creditScore") = Return risk ->
  run (checkEligibility ep world req_body)
  = (Return (res_json
       (obj [ ("success", JBool true);
              ("analysis",
               heuristic_analysis probability risk degraded_recommendations);
              ("aiPowered", JBool false);
              ("error", JString (Error.message error)) ])),
     [CallGetChatCompletions (deployment world)
        (eligibilityMessages prompt) eligibilityOptions]).
Proof.
  intros Hprompt Hfail Hp Hr.
  destruct (eligibilityPrompt_score ep req_body prompt Hprompt) as (Hd & _).
  unfold run, checkEligibility, try_catch, bind,
    openAIClient_getChatCompletions, await, lift, ret.
  rewrite Hprompt.
  destruct Hfail as [Hcall | (result & Hcall & Hchoice)]; rewrite Hcall.
  - cbn [app]. rewrite Hd, Hp, Hr. reflexivity.
  - cbn [app]. rewrite Hchoice, Hd, Hp, Hr. reflexivity.
Qed.

Lemma checkEligibility_unbuilt {rt : Runtime} (ep : EntryPoint) (world : World)
    (req_body : JsValue) (error : Error.t) :
  eligibilityPrompt ep req_body = Throw error ->
  run (checkEligibility ep world req_body)
  = (creditScore <~ destructure req_body "creditScore" ;;
     probability <~ approvalProbability creditScore ;;
     risk <~ riskLevel creditScore ;;
     Return (res_json
       (obj [ ("success", JBool true);
              ("analysis",
               heuristic_analysis probability risk degraded_recommendations);
              ("aiPowered", JBool false);
              ("error", JString (Error.message error)) ])),
     []).
Proof.
  intros Hprompt.
  unfold run, checkEligibility, try_catch, bind,
    openAIClient_getChatCompletions, await, lift, ret.
  rewrite Hprompt.
  destruct (destructure req_body "creditScore") as [c|e]; [|reflexivity].
  cbn [bindE].
  destruct (approvalProbability c) as [p|e]; [|reflexivity].
  cbn [bindE].
  destruct (riskLevel c) as [r|e]; reflexivity.
Qed.

(** C6, as amended: the parsing step never fails, the handler answering 200
    with the analysis it returns; when the reply does not decode, that
    analysis is the heuristic object, which holds all four fields; when the
    reply decodes, it is the decoded value as it is, so it holds the four
    fields exactly when the decoded value does. *)
Theorem C6_parse_total_and_populated_on_fallback {rt : Runtime}
    (aiResponse : JsValue) :
  (forall (ep : EntryPoint) (world : World) (req_body : JsValue)
          (prompt : jsstring) (result : ChatCompletions.t),
      eligibilityPrompt ep req_body = Return prompt ->
      getChatCompletions world (deployment world)
        (eligibilityMessages prompt) eligibilityOptions = Return result ->
      first_choice_content result = Return aiResponse ->
      exists analysis : JsValue,
        parseAiResponse aiResponse (get req_body "creditScore")
        = Return analysis
        /\ fst (run (checkEligibility ep world req_body))
           = Return {| status := 200;
                       body := obj [ ("success", JBool true);
                                     ("analysis", analysis);
                                     ("aiPowered", JBool true) ] |}
        /\ (JSON_parse aiResponse = None ->
            fully_populated analysis = true)
        /\ (forall decoded : JsValue,
               JSON_parse aiResponse = Some decoded -> analysis = decoded))
  /\ (forall (creditScore : JsValue) (n : number),
         ToNumber creditScore = Return n ->
         JSON_parse aiResponse = None ->
         exists analysis : JsValue,
           parseAiResponse aiResponse creditScore = Return analysis
           /\ fully_populated analysis = true)
  /\ (forall creditScore decoded : JsValue,
         JSON_parse aiResponse = Some decoded ->
         parseAiResponse aiResponse creditScore = Return decoded).
Proof.
  assert (Hfallback : forall (creditScore : JsValue) (p : Z) (r : string),
             approvalProbability creditScore = Return p ->
             riskLevel creditScore = Return r ->
             JSON_parse aiResponse = None ->
             exists analysis : JsValue,
               parseAiResponse aiResponse creditScore = Return analysis
               /\ fully_populated analysis = true).
  { intros creditScore p r Hp Hr Hfail.
    rewrite parseAiResponse_fallback by assumption. rewrite Hp, Hr.
    eexists. split; reflexivity. }
  split; [|split].
  - intros ep world req_body prompt result Hprompt Hcall Hchoice.
    destruct (eligibilityPrompt_score ep req_body prompt Hprompt)
      as (_ & p & r & Hp & Hr).
    destruct (parseAiResponse_returns aiResponse _ p r Hp Hr)
      as (analysis & Hparse).
    exists analysis. split; [exact Hparse|]. split.
    + now rewrite (checkEligibility_succeeded ep world req_body prompt result
                     aiResponse analysis).
    + split.
      * intros Hfail.
        destruct (Hfallback _ p r Hp Hr Hfail) as (analysis' & H1 & H2).
        rewrite Hparse in H1. now injection H1 as ->.
      * intros decoded Hdec.
        rewrite (parseAiResponse_decoded _ _ _ Hdec) in Hparse.
        now injection Hparse.
  - intros creditScore n Hn Hfail.
    destruct (heuristic_of_number _ _ Hn) as (p & r & Hp & Hr & _).
    now apply (Hfallback creditScore p r).
  - intros creditScore decoded Hdec. now apply parseAiResponse_decoded.
Qed.

Lemma C6_witness :
  @JSON_parse example_runtime (str "not json") = None
  /\ (exists analysis : JsValue,
         @parseAiResponse example_runtime (str "not json") (num 720)
         = Return analysis
         /\ fully_populated analysis = true)
  /\ @JSON_parse example_runtime (str "[]") = Some (JArray [])
  /\ @parseAiResponse example_runtime (str "[]") (num 720) = Return (JArray [])
  /\ exists analysis : JsValue,
       @parseAiResponse example_runtime (str "[]") (num 720) = Return analysis
       /\ fst (run (@checkEligibility example_runtime ServerJs
                      (replying_world (str "[]") JNull)
                      (sample_request "Home Loan" 500000 720)))
          = Return {| status := 200;
                      body := obj [ ("success", JBool true);
                                    ("analysis", analysis);
                                    ("aiPowered", JBool true) ] |}.
Proof.
  destruct (@C6_parse_total_and_populated_on_fallback example_runtime
              (str "not json")) as (_ & Hko & _).
  destruct (@C6_parse_total_and_populated_on_fallback example_runtime
              (str "[]")) as (Hrun & _ & Hok).
  split; [vm_compute; reflexivity|].
  split; [apply (Hko (num 720) (num_of_Z 720)); vm_compute; reflexivity|].
  split; [vm_compute; reflexivity|].
  split; [apply Hok; vm_compute; reflexivity|].
  destruct (Hrun ServerJs (replying_world (str "[]") JNull)
              (sample_request "Home Loan" 500000 720) _ _ eq_refl eq_refl
              eq_refl) as (analysis & Hparse & Hanswer & _).
  exists analysis. split; [exact Hparse | exact Hanswer].
Defined.

(** C6, as stated, fails: a reply that is JSON null, a JSON number, a JSON
    array or an object with one of the four keys is handed on as decoded,
    and holds none or only some of the four fields. *)
Lemma C6_counterexample :
  @parseAiResponse example_runtime (str "null") (num 720) = Return JNull
  /\ fully_populated JNull = false
  /\ @parseAiResponse example_runtime (str "42") (num 720) = Return (num 42)
  /\ fully_populated (num 42) = false
  /\ @parseAiResponse example_runtime (str "[]") (num 720) = Return (JArray [])
  /\ fully_populated (JArray []) = false
  /\ @parseAiResponse example_runtime (JString (dq "{'riskLevel':'Low'}")) (num 720)
     = Return (obj [("riskLevel", str "Low")])
  /\ fully_populated (obj [("riskLevel", str "Low")]) = false.
Proof. vm_compute. repeat split. Qed.

(** ** Inputs that are not numbers *)

(** C8, as amended: the heuristic is total over the integers, where it
    follows the boundary table; and on an undefined credit score, or any
    other whose conversion to a number is NaN, it does not fail: every
    comparison is false and it answers 35 and High. *)
Theorem C8_heuristic_silent_on_NaN {rt : Runtime} :
  (forall score : Z,
      approvalProbability (num score) = Return (fst (boundary_table score))
      /\ riskLevel (num score) = Return (snd (boundary_table score)))
  /\ (forall creditScore : JsValue,
         ToNumber creditScore = Return NaN ->
         (approvalProbability creditScore, riskLevel creditScore)
         = (Return 35, Return "High"))
  /\ (approvalProbability JUndefined, riskLevel JUndefined)
     = (Return 35, Return "High").
Proof.
  split; [exact heuristic_on_integers|].
  split; [exact heuristic_on_NaN|].
  now apply heuristic_on_NaN.
Qed.

Lemma C8_witness :
  @ToNumber example_runtime (str "abc") = Return NaN
  /\ (@approvalProbability example_runtime (str "abc"),
      @riskLevel example_runtime (str "abc")) = (Return 35, Return "High").
Proof.
  split; [vm_compute; reflexivity|].
  apply (proj1 (proj2 (@C8_heuristic_silent_on_NaN example_runtime))).
  vm_compute; reflexivity.
Defined.

(** C8, as stated, fails: with no credit score in the request, and with one
    that is not numeric, the heuristic answers 35 and High, and the handler
    answers 200 with that analysis; no InvalidInput error is raised. *)
Lemma C8_counterexample :
  (@approvalProbability example_runtime JUndefined,
   @riskLevel example_runtime JUndefined) = (Return 35, Return "High")
  /\ (@approvalProbability example_runtime (str "abc"),
      @riskLevel example_runtime (str "abc")) = (Return 35, Return "High")
  /\ fst (run (@checkEligibility example_runtime ServerJs failing_world (obj [])))
     = Return
         {| status := 200;
            body :=
              obj [ ("success", JBool true);
                    ("analysis",
                     obj [ ("approvalProbability", num 35);
                           ("riskLevel", str "High");
                           ("recommendations", degraded_recommendations);
                           ("suitableBanks",
                            JArray [str "HDFC Bank"; str "SBI";
                                    str "ICICI Bank"]) ]);
                    ("aiPowered", JBool false);
                    ("error", str "connect ETIMEDOUT") ] |}.
Proof. vm_compute. repeat split. Qed.

(** ** The degraded eligibility answer *)

(** C3: when the chat-completion call rejects, the handler answers 200 with
    success true, aiPowered false, the error's message, and an analysis
    whose probability and risk are the heuristic's for the request's credit
    score (the boundary table's, on an integer score), with the fixed
    narrative and the three banks. *)
Theorem C3_upstream_failure_degrades_to_heuristic {rt : Runtime}
    (ep : EntryPoint) (world : World) (req_body : JsValue)
    (prompt : jsstring) (error : Error.t) :
  eligibilityPrompt ep req_body = Return prompt ->
  getChatCompletions world (deployment world)
    (eligibilityMessages prompt) eligibilityOptions = Throw error ->
  let creditScore := get req_body "creditScore" in
  exists (probability : Z) (risk : string),
    approvalProbability creditScore = Return probability
    /\ riskLevel creditScore = Return risk
    /\ let analysis :=
         obj [ ("approvalProbability", num probability);
               ("riskLevel", str risk);
               ("recommendations",
                str "Based on your credit score and income, you have a good chance of approval.");
               ("suitableBanks",
                JArray [str "HDFC Bank"; str "SBI"; str "ICICI Bank"]) ] in
       fst (run (checkEligibility ep world req_body))
       = Return {| status := 200;
                   body := obj [ ("success", JBool true);
                                 ("analysis", analysis);
                                 ("aiPowered", JBool false);
                                 ("error", JString (Error.message error)) ] |}
       /\ fully_populated analysis = true
       /\ (forall score : Z,
              creditScore = num score ->
              get analysis "approvalProbability"
              = num (fst (boundary_table score))
              /\ get analysis "riskLevel" = str (snd (boundary_table score))).
Proof.
  intros Hprompt Hcall creditScore.
  destruct (eligibilityPrompt_score ep req_body prompt Hprompt)
    as (_ & p & r & Hp & Hr).
  exists p, r. split; [exact Hp|]. split; [exact Hr|].
  intros analysis. split; [|split].
  - now rewrite (checkEligibility_degraded ep world req_body prompt error p r
                   Hprompt (or_introl Hcall) Hp Hr).
  - reflexivity.
  - intros score Hscore. subst creditScore. rewrite Hscore in Hp, Hr.
    destruct (heuristic_on_integers score) as (Hp' & Hr').
    rewrite Hp' in Hp. rewrite Hr' in Hr.
    injection Hp as <-. injection Hr as <-. split; reflexivity.
Qed.

Lemma C3_witness :
  (exists prompt : jsstring,
      @eligibilityPrompt example_runtime IntegratedServerJs
        (sample_request "Home Loan" 500000 720) = Return prompt
      /\ getChatCompletions failing_world (deployment failing_world)
           (eligibilityMessages prompt) eligibilityOptions
         = Throw upstream_error)
  /\ fst (run (@checkEligibility example_runtime IntegratedServerJs failing_world
                 (sample_request "Home Loan" 500000 720)))
     = Return {| status := 200;
                 body :=
                   obj [ ("success", JBool true);
                         ("analysis",
                          obj [ ("approvalProbability", num 75);
                                ("riskLevel", str "Low");
                                ("recommendations", degraded_recommendations);
                                ("suitableBanks",
                                 JArray [str "HDFC Bank"; str "SBI";
                                         str "ICICI Bank"]) ]);
                         ("aiPowered", JBool false);
                         ("error", str "connect ETIMEDOUT") ] |}.
Proof.
  split; [eexists; split; reflexivity|].
  destruct (@C3_upstream_failure_degrades_to_heuristic example_runtime
              IntegratedServerJs failing_world
              (sample_request "Home Loan" 500000 720) _ upstream_error
              eq_refl eq_refl) as (p & r & Hp & Hr & Hanswer & _).
  injection Hp as <-. injection Hr as <-. exact Hanswer.
Defined.

(** C10: two eligibility requests with the same credit score whose calls
    reject with the same error get the same degraded answer, whatever their
    other fields, in either entry point; its narrative and its banks are
    the two constants. *)
Theorem C10_degraded_answer_depends_on_score_and_error {rt : Runtime}
    (ep1 ep2 : EntryPoint) (world1 world2 : World)
    (req_body1 req_body2 : JsValue) (prompt1 prompt2 : jsstring)
    (error : Error.t) :
  get req_body1 "creditScore" = get req_body2 "creditScore" ->
  eligibilityPrompt ep1 req_body1 = Return prompt1 ->
  eligibilityPrompt ep2 req_body2 = Return prompt2 ->
  getChatCompletions world1 (deployment world1)
    (eligibilityMessages prompt1) eligibilityOptions = Throw error ->
  getChatCompletions world2 (deployment world2)
    (eligibilityMessages prompt2) eligibilityOptions = Throw error ->
  let answer1 := fst (run (checkEligibility ep1 world1 req_body1)) in
  let answer2 := fst (run (checkEligibility ep2 world2 req_body2)) in
  analysis_of answer1 = analysis_of answer2
  /\ answer1 = answer2
  /\ (exists resp : Response, answer1 = Return resp)
  /\ get (analysis_of answer1) "recommendations"
     = str "Based on your credit score and income, you have a good chance of approval."
  /\ get (analysis_of answer1) "suitableBanks"
     = JArray [str "HDFC Bank"; str "SBI"; str "ICICI Bank"].
Proof.
  intros Hscore Hprompt1 Hprompt2 Hcall1 Hcall2 answer1 answer2.
  subst answer1 answer2.
  destruct (eligibilityPrompt_score ep1 req_body1 prompt1 Hprompt1)
    as (_ & p & r & Hp & Hr).
  rewrite (checkEligibility_degraded ep1 world1 req_body1 prompt1 error p r
             Hprompt1 (or_introl Hcall1) Hp Hr).
  rewrite Hscore in Hp, Hr.
  rewrite (checkEligibility_degraded ep2 world2 req_body2 prompt2 error p r
             Hprompt2 (or_introl Hcall2) Hp Hr).
  split; [reflexivity|]. split; [reflexivity|].
  split; [eexists; reflexivity|]. split; reflexivity.
Qed.

Lemma C10_witness :
  get (sample_request "Home Loan" 500000 720) "creditScore"
  = get (sample_request "Gold Loan" 40000 720) "creditScore"
  /\ sample_request "Home Loan" 500000 720
     <> sample_request "Gold Loan" 40000 720
  /\ analysis_of
       (fst (run (@checkEligibility example_runtime ServerJs failing_world
                    (sample_request "Home Loan" 500000 720))))
     = analysis_of
         (fst (run (@checkEligibility example_runtime IntegratedServerJs
                      failing_world
                      (sample_request "Gold Loan" 40000 720)))).
Proof.
  split; [reflexivity|].
  split; [discriminate|].
  exact (proj1 (@C10_degraded_answer_depends_on_score_and_error example_runtime
                  ServerJs IntegratedServerJs failing_world failing_world
                  (sample_request "Home Loan" 500000 720)
                  (sample_request "Gold Loan" 40000 720) _ _
                  upstream_error eq_refl eq_refl eq_refl eq_refl eq_refl)).
Defined.

(** ** The document extractor *)

Lemma firstn_min_length {A} (n : nat) (l : list A) :
  firstn (Nat.min n (List.length l)) l = firstn n l.
Proof.
  destruct (Nat.le_ge_cases n (List.length l)) as [H | H].
  - now rewrite Nat.min_l.
  - rewrite Nat.min_r by assumption.
    now rewrite firstn_all, firstn_all2.
Qed.

Lemma substring_from_start (s : jsstring) (n : nat) :
  substring s 0 n = firstn n s.
Proof.
  unfold substring. cbn [Nat.min skipn].
  rewrite Nat.max_0_l, Nat.sub_0_r. apply firstn_min_length.
Qed.

Lemma slice_from_start {A} (xs : list A) (n : nat) :
  slice xs 0 n = firstn n xs.
Proof.
  unfold slice. cbn [Nat.min skipn].
  rewrite Nat.sub_0_r. apply firstn_min_length.
Qed.

Lemma length_or_zero (n : nat) :
  or_else (JNumber (num_of_nat n)) (num 0) = num (Z.of_nat n).
Proof.
  destruct n as [|n]; [reflexivity|].
  unfold or_else, ToBoolean, num_of_nat, num_of_Z.
  destruct (Qeq_bool (inject_Z (Z.of_nat (S n))) 0) eqn:E; [|reflexivity].
  apply Qeq_bool_iff in E. unfold Qeq in E. cbn [Qnum Qden inject_Z] in E. lia.
Qed.

Lemma pairEntry_of_pair (pair : KeyValuePair.t) :
  pairEntry (raw_pair pair) = Return (entry_of pair).
Proof.
  destruct pair as [[[[|c s]]|] [[[|c' s']]|] [conf|]]; reflexivity.
Qed.

Lemma pairEntries_of_pairs (pairs : list KeyValuePair.t) :
  sequence (map pairEntry (map raw_pair pairs)) = Return (map entry_of pairs).
Proof.
  induction pairs as [|pair pairs IH]; [reflexivity|].
  cbn [map sequence]. rewrite pairEntry_of_pair, IH. reflexivity.
Qed.

Lemma extractedData_of_result (file : File.t) (result : AnalyzeResult.t) :
  extractedData file (raw_result result) = Return (extraction_of file result).
Proof.
  destruct result as [pages content pairs].
  assert (Hp : getprop (raw_result (AnalyzeResult.Build_t pages content pairs))
                 "pages"
               = Return (match pages with
                         | Some ps => JArray (map raw_page ps)
                         | None => JUndefined
                         end))
    by (destruct pages, content, pairs; reflexivity).
  assert (Hc : getprop (raw_result (AnalyzeResult.Build_t pages content pairs))
                 "content"
               = Return (match content with
                         | Some c => JString c
                         | None => JUndefined
                         end))
    by (destruct pages, content, pairs; reflexivity).
  assert (Hk : getprop (raw_result (AnalyzeResult.Build_t pages content pairs))
                 "keyValuePairs"
               = Return (match pairs with
                         | Some ps => JArray (map raw_pair ps)
                         | None => JUndefined
                         end))
    by (destruct pages, content, pairs; reflexivity).
  unfold extractedData, extraction_of. rewrite Hp, Hc, Hk. cbn [bindE].
  cbn [AnalyzeResult.pages AnalyzeResult.content AnalyzeResult.keyValuePairs].
  assert (Hpages :
    or_else (optprop (match pages with
                      | Some ps => JArray (map raw_page ps)
                      | None => JUndefined
                      end) "length") (num 0)
    = num (Z.of_nat (match pages with
                     | Some ps => List.length ps
                     | None => 0%nat
                     end))).
  { destruct pages as [ps|]; [|reflexivity].
    change (optprop (JArray (map raw_page ps)) "length")
      with (JNumber (num_of_nat (List.length (map raw_page ps)))).
    rewrite length_map. apply length_or_zero. }
  rewrite Hpages.
  assert (Htext :
    (if ToBoolean (match content with
                   | Some c => JString c
                   | None => JUndefined
                   end)
     then match (match content with
                 | Some c => JString c
                 | None => JUndefined
                 end) with
          | JString s => Return (JString (substring s 0 1000))
          | _ => Throw (TypeError_not_a_function "result.content.substring")
          end
     else Return (str ""))
    = Return (JString (firstn 1000 (match content with
                                    | Some c => c
                                    | None => []
                                    end)))).
  { destruct content as [[|c s]|]; try reflexivity.
    cbn [ToBoolean]. now rewrite substring_from_start. }
  rewrite Htext. cbn [bindE].
  destruct pairs as [ps|]; cbn [ToBoolean bindE]; [|reflexivity].
  rewrite slice_from_start, firstn_map, pairEntries_of_pairs.
  reflexivity.
Qed.

(** ** The runs of the document handler *)

(** The degraded answer of the document handler. *)
Lemma analyzeDocument_run (world : World) (file : File.t) :
  let degraded (error : Error.t) : Response :=
    res_json
      (obj [ ("success", JBool true);
             ("data",
              obj [ ("documentType",
                     or_else (JString (File.mimetype file)) (str "unknown"));
                    ("pages", num 1);
                    ("text", str "Document received and validated");
                    ("message", str "Document appears clear and readable") ]);
             ("aiPowered", JBool false);
             ("error", JString (Error.message error)) ]) in
  run (analyzeDocument world (Some file))
  = match beginAnalyzeDocument world (lit "prebuilt-document")
            (File.buffer file) with
    | Throw error =>
        (Return (degraded error),
         [CallBeginAnalyzeDocument (lit "prebuilt-document") (File.buffer file)])
    | Return poller =>
        (match Poller.pollUntilDone poller with
         | Throw error => Return (degraded error)
         | Return result =>
             match extractedData file result with
             | Throw error => Return (degraded error)
             | Return data => Return (document_success data)
             end
         end,
         [CallBeginAnalyzeDocument (lit "prebuilt-document") (File.buffer file);
          CallPollUntilDone])
    end.
Proof.
  intros degraded.
  unfold run, analyzeDocument, try_catch, bind, lift,
    documentClient_beginAnalyzeDocument, poller_pollUntilDone, await, ret.
  destruct (beginAnalyzeDocument world _ _) as [poller | error]; cbn [app].
  - destruct (Poller.pollUntilDone poller) as [result | error];
      [|reflexivity].
    destruct (extractedData file result); reflexivity.
  - reflexivity.
Qed.

Lemma placeholder_type (file : File.t) :
  or_else (JString (File.mimetype file)) (str "unknown")
  = JString (match File.mimetype file with
             | [] => lit "unknown"
             | c :: s => c :: s
             end).
Proof. destruct (File.mimetype file); reflexivity. Qed.

(** C4: for a successful analysis result the extractor gives: pages, the
    length of the page collection (0 when absent); text, the first 1000
    code units of the content (all of it when shorter, exactly 1000 when
    longer, empty when absent); keyValuePairs, the first ten pairs in their
    order, each as key, value and confidence, a missing one being the empty
    string or 0; tables, empty.  The handler answers with that object. *)
Theorem C4_extractor_bounds_pages_text_pairs
    (file : File.t) (result : AnalyzeResult.t) :
  let pages :=
    match AnalyzeResult.pages result with Some ps => ps | None => [] end in
  let content :=
    match AnalyzeResult.content result with Some c => c | None => [] end in
  let pairs :=
    match AnalyzeResult.keyValuePairs result with Some kv => kv | None => [] end in
  exists data : JsValue,
    extractedData file (raw_result result) = Return data
    /\ get data "pages" = num (Z.of_nat (List.length pages))
    /\ (exists text : jsstring,
           get data "text" = JString text
           /\ text = firstn 1000 content
           /\ List.length text = Nat.min 1000 (List.length content)
           /\ (List.length content <= 1000 -> text = content)%nat
           /\ (1000 < List.length content -> List.length text = 1000)%nat)
    /\ get data "keyValuePairs" = JArray (map entry_of (firstn 10 pairs))
    /\ (forall pair : KeyValuePair.t,
           exists confidence : number,
             pairEntry (raw_pair pair)
             = Return
                 (obj [ ("key",
                         JString (content_or_empty (KeyValuePair.key pair)));
                        ("value",
                         JString (content_or_empty (KeyValuePair.value pair)));
                        ("confidence", JNumber confidence) ])
             /\ entry_of pair
                = obj [ ("key",
                         JString (content_or_empty (KeyValuePair.key pair)));
                        ("value",
                         JString (content_or_empty (KeyValuePair.value pair)));
                        ("confidence", JNumber confidence) ]
             /\ (KeyValuePair.confidence pair = None -> confidence = Fin 0)
             /\ (forall q : Q,
                    KeyValuePair.confidence pair = Some (Fin q) ->
                    exists q' : Q, confidence = Fin q' /\ q' == q))
    /\ get data "tables" = JArray []
    /\ get data "documentType" = JString (File.mimetype file)
    /\ fully_formed data = true
    /\ (forall (world : World) (poller : Poller.t),
           beginAnalyzeDocument world (lit "prebuilt-document")
             (File.buffer file) = Return poller ->
           Poller.pollUntilDone poller = Return (raw_result result) ->
           fst (run (analyzeDocument world (Some file)))
           = Return {| status := 200;
                       body := obj [ ("success", JBool true);
                                     ("data", data);
                                     ("aiPowered", JBool true);
                                     ("message",
                                      str "Document analyzed successfully") ] |}).
Proof.
  intros pages content pairs.
  exists (extraction_of file result).
  split; [apply extractedData_of_result|].
  split; [|split; [|split; [|split; [|split; [|split; [|split]]]]]].
  - subst pages. unfold extraction_of.
    destruct (AnalyzeResult.pages result); reflexivity.
  - exists (firstn 1000 content). subst content.
    split; [reflexivity|].
    split; [reflexivity|].
    split; [apply length_firstn|].
    split.
    + intros H. now apply firstn_all2.
    + intros H. rewrite length_firstn. lia.
  - reflexivity.
  - intros pair.
    assert (H : exists confidence : number,
               entry_of pair
               = obj [ ("key",
                        JString (content_or_empty (KeyValuePair.key pair)));
                       ("value",
                        JString (content_or_empty (KeyValuePair.value pair)));
                       ("confidence", JNumber confidence) ]
               /\ (KeyValuePair.confidence pair = None -> confidence = Fin 0)
               /\ (forall q : Q,
                      KeyValuePair.confidence pair = Some (Fin q) ->
                      exists q' : Q, confidence = Fin q' /\ q' == q)).
    { unfold entry_of.
      destruct (KeyValuePair.confidence pair) as [c|] eqn:Hc.
      - destruct c as [| | |q].
        + exists (Fin 0). repeat split; intros; discriminate.
        + exists PInf. repeat split; intros; discriminate.
        + exists NInf. repeat split; intros; discriminate.
        + unfold or_else, ToBoolean.
          destruct (Qeq_bool q 0) eqn:E; cbn [negb].
          * exists (Fin 0). split; [reflexivity|]. split; [discriminate|].
            intros q0 [= ->]. exists 0%Q. split; [reflexivity|].
            apply Qeq_bool_iff in E. now symmetry.
          * exists (Fin q). split; [reflexivity|]. split; [discriminate|].
            intros q0 [= ->]. exists q0. split; reflexivity.
      - exists (Fin 0). split; [reflexivity|]. split; [reflexivity|].
        intros; discriminate. }
    destruct H as (confidence & Hentry & Hnone & Hsome).
    exists confidence. rewrite pairEntry_of_pair, Hentry.
    repeat split; assumption.
  - reflexivity.
  - reflexivity.
  - reflexivity.
  - intros world poller Hbegin Hpoll.
    rewrite (analyzeDocument_run world file). cbv zeta.
    rewrite Hbegin, Hpoll, extractedData_of_result. reflexivity.
Qed.

Lemma C4_witness :
  exists data : JsValue,
    extractedData sample_file (raw_result sample_result) = Return data
    /\ get data "pages" = num 3
    /\ get data "text" = JString (repeat 120%N 1000)
    /\ get data "keyValuePairs"
       = JArray (map (fun k => entry_of (sample_pair k "v"))
                   ["k1"; "k2"; "k3"; "k4"; "k5"; "k6"; "k7"; "k8"; "k9"; "k10"])
    /\ fst (run (analyzeDocument
                   (replying_world JNull (raw_result sample_result))
                   (Some sample_file)))
       = Return {| status := 200;
                   body := obj [ ("success", JBool true);
                                 ("data", data);
                                 ("aiPowered", JBool true);
                                 ("message",
                                  str "Document analyzed successfully") ] |}.
Proof.
  destruct (C4_extractor_bounds_pages_text_pairs sample_file sample_result)
    as (data & Hdata & Hpages & (text & Htext & Hfirst & _) & Hpairs
        & _ & _ & _ & _ & Hrun).
  exists data.
  split; [exact Hdata|].
  split; [exact (eq_trans Hpages eq_refl)|].
  split; [rewrite Htext, Hfirst; reflexivity|].
  split; [exact (eq_trans Hpairs eq_refl)|].
  exact (Hrun (replying_world JNull (raw_result sample_result))
           {| Poller.pollUntilDone := Return (raw_result sample_result) |}
           eq_refl eq_refl).
Defined.

(** ** The document handler without a file, and when it fails *)

Lemma analyzeDocument_calls (world : World) (file : File.t) :
  exists rest : list Call,
    snd (run (analyzeDocument world (Some file)))
    = CallBeginAnalyzeDocument (lit "prebuilt-document") (File.buffer file)
      :: rest.
Proof.
  rewrite (analyzeDocument_run world file). cbv zeta.
  destruct (beginAnalyzeDocument world _ _); eexists; reflexivity.
Qed.

(** C5: with no file attached the handler answers 400 with success false
    and has made no outbound call; a run that made a call had a file, and
    with a file the first call is the analysis of its bytes. *)
Theorem C5_missing_file_rejected_without_call (world : World) :
  run (analyzeDocument world None)
  = (Return {| status := 400;
               body := obj [ ("success", JBool false);
                             ("error", str "No document uploaded") ] |},
     [])
  /\ (forall req_file : option File.t,
         snd (run (analyzeDocument world req_file)) <> [] ->
         exists file : File.t, req_file = Some file)
  /\ (forall file : File.t,
         exists rest : list Call,
           snd (run (analyzeDocument world (Some file)))
           = CallBeginAnalyzeDocument (lit "prebuilt-document")
               (File.buffer file) :: rest).
Proof.
  split; [reflexivity|split].
  - intros [file|] Hcalls; [now exists file|].
    now contradiction Hcalls.
  - apply analyzeDocument_calls.
Qed.

Lemma C5_witness :
  snd (run (analyzeDocument failing_world (Some sample_file))) <> []
  /\ exists file : File.t, Some sample_file = Some file.
Proof.
  assert (H : snd (run (analyzeDocument failing_world (Some sample_file))) <> [])
    by discriminate.
  split; [exact H|].
  exact (proj1 (proj2 (C5_missing_file_rejected_without_call failing_world))
           (Some sample_file) H).
Defined.

(** C7, as amended: with a file attached, when an error is thrown during
    the remote call (the analysis or its polling rejects) or during
    normalization (reading the result throws), the handler answers 200 with
    success true, aiPowered false, the error's message, and a data object
    made of local defaults that holds four fields: documentType (the file's
    mime type, or "unknown" when that is empty), pages 1, and the two fixed
    strings text and message; it holds no keyValuePairs and no tables. *)
Theorem C7_document_failure_degrades_to_placeholder
    (world : World) (file : File.t) (error : Error.t) :
  beginAnalyzeDocument world (lit "prebuilt-document") (File.buffer file)
  = Throw error
  \/ (exists poller : Poller.t,
         beginAnalyzeDocument world (lit "prebuilt-document") (File.buffer file)
         = Return poller
         /\ Poller.pollUntilDone poller = Throw error)
  \/ (exists (poller : Poller.t) (result : JsValue),
         beginAnalyzeDocument world (lit "prebuilt-document") (File.buffer file)
         = Return poller
         /\ Poller.pollUntilDone poller = Return result
         /\ extractedData file result = Throw error) ->
  let data :=
    obj [ ("documentType",
           JString (match File.mimetype file with
                    | [] => lit "unknown"
                    | c :: s => c :: s
                    end));
          ("pages", num 1);
          ("text", str "Document received and validated");
          ("message", str "Document appears clear and readable") ] in
  fst (run (analyzeDocument world (Some file)))
  = Return {| status := 200;
              body := obj [ ("success", JBool true);
                            ("data", data);
                            ("aiPowered", JBool false);
                            ("error", JString (Error.message error)) ] |}
  /\ has data "keyValuePairs" = false
  /\ has data "tables" = false.
Proof.
  intros Hfail data.
  split; [|split; reflexivity].
  rewrite (analyzeDocument_run world file). cbv zeta.
  rewrite placeholder_type. subst data.
  destruct Hfail as [Hbegin | [(poller & Hbegin & Hpoll)
                              | (poller & result & Hbegin & Hpoll & Hdata)]];
    rewrite Hbegin; cbn [fst]; try rewrite Hpoll; try rewrite Hdata;
    reflexivity.
Qed.

Lemma C7_witness :
  (beginAnalyzeDocument failing_world (lit "prebuilt-document")
     (File.buffer sample_file) = Throw upstream_error
   /\ fst (run (analyzeDocument failing_world (Some sample_file)))
      = Return {| status := 200;
                  body :=
                    obj [ ("success", JBool true);
                          ("data",
                           obj [ ("documentType", str "application/pdf");
                                 ("pages", num 1);
                                 ("text", str "Document received and validated");
                                 ("message",
                                  str "Document appears clear and readable") ]);
                          ("aiPowered", JBool false);
                          ("error", str "connect ETIMEDOUT") ] |})
  /\ (extractedData sample_file null_pair_result
      = Throw (TypeError_read "null" "key")
      /\ fst (run (analyzeDocument (replying_world JNull null_pair_result)
                     (Some sample_file)))
         = Return {| status := 200;
                     body :=
                       obj [ ("success", JBool true);
                             ("data",
                              obj [ ("documentType", str "application/pdf");
                                    ("pages", num 1);
                                    ("text",
                                     str "Document received and validated");
                                    ("message",
                                     str "Document appears clear and readable") ]);
                             ("aiPowered", JBool false);
                             ("error",
                              str "Cannot read properties of null (reading 'key')") ] |}).
Proof.
  split; (split; [reflexivity|]).
  - exact (eq_trans
             (proj1 (C7_document_failure_degrades_to_placeholder failing_world
                       sample_file upstream_error (or_introl eq_refl)))
             eq_refl).
  - exact (eq_trans
             (proj1 (C7_document_failure_degrades_to_placeholder
                       (replying_world JNull null_pair_result)
                       sample_file (TypeError_read "null" "key")
                       (or_intror (or_intror
                          (ex_intro _ {| Poller.pollUntilDone :=
                                           Return null_pair_result |}
                             (ex_intro _ null_pair_result
                                (conj eq_refl (conj eq_refl eq_refl))))))))
             eq_refl).
Defined.

(** C7, as stated, fails: the data object of the degraded answer is not a
    DocumentExtraction; it has neither keyValuePairs nor tables. *)
Lemma C7_counterexample :
  fully_formed
    (data_of (fst (run (analyzeDocument failing_world (Some sample_file)))))
  = false
  /\ has (data_of (fst (run (analyzeDocument failing_world (Some sample_file)))))
       "keyValuePairs" = false
  /\ has (data_of (fst (run (analyzeDocument failing_world (Some sample_file)))))
       "tables" = false
  /\ data_of (fst (run (analyzeDocument failing_world (Some sample_file))))
     = obj [ ("documentType", str "application/pdf");
             ("pages", num 1);
             ("text", str "Document received and validated");
             ("message", str "Document appears clear and readable") ].
Proof. vm_compute. repeat split. Qed.

(** ** The two entry points *)

Lemma recommendationsPrompt_built {rt : Runtime} (ep : EntryPoint)
    (req_body : JsValue) (prompt : jsstring) :
  recommendationsPrompt ep req_body = Return prompt ->
  (forall k : string, destructure req_body k = Return (get req_body k))
  /\ exists purpose income creditScore : jsstring,
       ToString (get req_body "purpose") = Return purpose
       /\ ToString (get req_body "income") = Return income
       /\ ToString (get req_body "creditScore") = Return creditScore
       /\ prompt
          = lit "Based on the following user profile, recommend the most suitable loan types:" ++ nl ++
            lit "    " ++ nl ++
            lit "Purpose: " ++ purpose ++ nl ++
            lit "Monthly Income: " ++ rupee ep ++ income ++ nl ++
            lit "Credit Score: " ++ creditScore ++ nl ++
            nl ++
            lit "Recommend 3 most suitable loan types from: Personal Loan, Home Loan, Education Loan, Vehicle Loan, Business Loan, Gold Loan, Loan Against Property, PM Mudra Loan." ++ nl ++
            nl ++
            lit "For each recommendation, provide:" ++ nl ++
            lit "1. Loan type" ++ nl ++
            lit "2. Why it's suitable" ++ nl ++
            lit "3. Estimated amount range" ++ nl ++
            lit "4. Key benefits" ++ nl ++
            nl ++
            lit "Format as JSON array.".
Proof.
  unfold recommendationsPrompt. intros H.
  destruct (destructure req_body "purpose") as [v|e] eqn:Hd; [|discriminate H].
  pose proof (destructure_all req_body _ _ Hd) as Hall.
  rewrite (Hall "purpose") in Hd. injection Hd as <-.
  rewrite !Hall in H. cbn [bindE] in H.
  split; [exact Hall|].
  destruct (ToString (get req_body "purpose")) as [s1|] ; [|discriminate H].
  destruct (ToString (get req_body "income")) as [s2|] ; [|discriminate H].
  destruct (ToString (get req_body "creditScore")) as [s3|] ; [|discriminate H].
  cbn [bindE] in H. injection H as <-.
  exists s1, s2, s3. repeat split.
Qed.

Lemma eligibilityPrompt_both {rt : Runtime} (req_body : JsValue)
    (prompt1 : jsstring) :
  eligibilityPrompt ServerJs req_body = Return prompt1 ->
  exists prompt2 prefix rest1 rest2 : jsstring,
    eligibilityPrompt IntegratedServerJs req_body = Return prompt2
    /\ prompt1 = prefix ++ 8377%N :: rest1
    /\ prompt2 = prefix ++ 226%N :: 8218%N :: 185%N :: rest2.
Proof.
  intros H. apply eligibilityPrompt_built in H.
  destruct H as (Hall & s1 & s2 & s3 & s4 & s5 & H1 & H2 & H3 & H4 & H5 & ->).
  eexists _,
    (lit "You are a loan eligibility expert. Analyze this loan application:"
     ++ nl ++ lit "    " ++ nl ++ lit "Loan Type: " ++ s1 ++ nl
     ++ lit "Requested Amount: "), _, _.
  split; [|split].
  - unfold eligibilityPrompt. rewrite !Hall. cbn [bindE].
    rewrite H1, H2, H3, H4, H5. cbn [bindE]. reflexivity.
  - rewrite <- !app_assoc. reflexivity.
  - rewrite <- !app_assoc. reflexivity.
Qed.

Lemma recommendationsPrompt_both {rt : Runtime} (req_body : JsValue)
    (prompt1 : jsstring) :
  recommendationsPrompt ServerJs req_body = Return prompt1 ->
  exists prompt2 prefix rest1 rest2 : jsstring,
    recommendationsPrompt IntegratedServerJs req_body = Return prompt2
    /\ prompt1 = prefix ++ 8377%N :: rest1
    /\ prompt2 = prefix ++ 226%N :: 8218%N :: 185%N :: rest2.
Proof.
  intros H. apply recommendationsPrompt_built in H.
  destruct H as (Hall & s1 & s2 & s3 & H1 & H2 & H3 & ->).
  eexists _,
    (lit "Based on the following user profile, recommend the most suitable loan types:"
     ++ nl ++ lit "    " ++ nl ++ lit "Purpose: " ++ s1 ++ nl
     ++ lit "Monthly Income: "), _, _.
  split; [|split].
  - unfold recommendationsPrompt. rewrite !Hall. cbn [bindE].
    rewrite H1, H2, H3. cbn [bindE]. reflexivity.
  - rewrite <- !app_assoc. reflexivity.
  - rewrite <- !app_assoc. reflexivity.
Qed.

Lemma split_prompts_differ (prefix rest1 rest2 : jsstring) :
  prefix ++ 8377%N :: rest1 <> prefix ++ 226%N :: 8218%N :: 185%N :: rest2.
Proof. intros H. apply app_inv_head in H. discriminate H. Qed.

Lemma checkEligibility_calls {rt : Runtime} (ep : EntryPoint) (world : World)
    (req_body : JsValue) :
  snd (run (checkEligibility ep world req_body))
  = match eligibilityPrompt ep req_body with
    | Return prompt =>
        [CallGetChatCompletions (deployment world)
           (eligibilityMessages prompt) eligibilityOptions]
    | Throw _ => []
    end.
Proof.
  destruct (eligibilityPrompt ep req_body) as [prompt|e] eqn:Hprompt.
  - destruct (eligibilityPrompt_score ep req_body prompt Hprompt)
      as (_ & p & r & Hp & Hr).
    destruct (getChatCompletions world (deployment world)
                (eligibilityMessages prompt) eligibilityOptions)
      as [result|error] eqn:Hcall.
    + destruct (first_choice_content result) as [ai|error] eqn:Hchoice.
      * destruct (parseAiResponse_returns ai _ p r Hp Hr) as (analysis & Hparse).
        now rewrite (checkEligibility_succeeded ep world req_body prompt result
                       ai analysis).
      * now rewrite (checkEligibility_degraded ep world req_body prompt error
                       p r Hprompt
                       (or_intror (ex_intro _ result (conj Hcall Hchoice)))).
    + now rewrite (checkEligibility_degraded ep world req_body prompt error
                     p r Hprompt (or_introl Hcall)).
  - now rewrite (checkEligibility_unbuilt ep world req_body e).
Qed.

Lemma loanRecommendations_run {rt : Runtime} (ep : EntryPoint) (world : World)
    (req_body : JsValue) :
  run (loanRecommendations ep world req_body)
  = match recommendationsPrompt ep req_body with
    | Throw _ =>
        (Return (res_json (obj [ ("success", JBool true);
                                 ("recommendations", fallback_recommendations ep);
                                 ("aiPowered", JBool false) ])),
         [])
    | Return prompt =>
        (match getChatCompletions world (deployment world)
                 (recommendationsMessages prompt) recommendationsOptions with
         | Throw _ =>
             Return (res_json
                       (obj [ ("success", JBool true);
                              ("recommendations", fallback_recommendations ep);
                              ("aiPowered", JBool false) ]))
         | Return result =>
             match first_choice_content result with
             | Throw _ =>
                 Return (res_json
                           (obj [ ("success", JBool true);
                                  ("recommendations",
                                   fallback_recommendations ep);
                                  ("aiPowered", JBool false) ]))
             | Return aiResponse =>
                 Return (res_json (obj [ ("success", JBool true);
                                         ("recommendations", aiResponse);
                                         ("aiPowered", JBool true) ]))
             end
         end,
         [CallGetChatCompletions (deployment world)
            (recommendationsMessages prompt) recommendationsOptions])
    end.
Proof.
  unfold run, loanRecommendations, try_catch, bind,
    openAIClient_getChatCompletions, await, lift, ret.
  destruct (recommendationsPrompt ep req_body) as [prompt|e]; [|reflexivity].
  destruct (getChatCompletions world _ _ _) as [result|e]; cbn [app];
    [|reflexivity].
  destruct (first_choice_content result); reflexivity.
Qed.

(** C9 fails on the code: the two entry points do not build the same
    prompts.  Up to the requested amount the eligibility prompts agree;
    there [server.js] writes the rupee sign U+20B9 and
    [integrated-server.js] the three code units U+00E2 U+201A U+00B9.  So
    the payloads of the chat calls differ for every request that gets as
    far as a call, in both chat handlers, and so does the fallback answer
    of the recommendations handler, in its amount range. *)
Theorem C9_entry_points_differ_in_currency_sign {rt : Runtime} :
  (forall (req_body : JsValue) (prompt1 : jsstring),
      eligibilityPrompt ServerJs req_body = Return prompt1 ->
      exists prompt2 prefix rest1 rest2 : jsstring,
        eligibilityPrompt IntegratedServerJs req_body = Return prompt2
        /\ prompt1 = prefix ++ 8377%N :: rest1
        /\ prompt2 = prefix ++ 226%N :: 8218%N :: 185%N :: rest2)
  /\ (forall (world : World) (req_body : JsValue) (prompt1 : jsstring),
         eligibilityPrompt ServerJs req_body = Return prompt1 ->
         snd (run (checkEligibility ServerJs world req_body))
         <> snd (run (checkEligibility IntegratedServerJs world req_body)))
  /\ (forall (world : World) (req_body : JsValue) (prompt1 : jsstring),
         recommendationsPrompt ServerJs req_body = Return prompt1 ->
         snd (run (loanRecommendations ServerJs world req_body))
         <> snd (run (loanRecommendations IntegratedServerJs world req_body)))
  /\ (forall req_body : JsValue,
         fst (run (loanRecommendations ServerJs failing_world req_body))
         <> fst (run (loanRecommendations IntegratedServerJs failing_world
                        req_body))).
Proof.
  split; [|split; [|split]].
  - exact eligibilityPrompt_both.
  - intros world req_body prompt1 H1.
    destruct (eligibilityPrompt_both req_body prompt1 H1)
      as (prompt2 & prefix & rest1 & rest2 & H2 & -> & ->).
    rewrite !checkEligibility_calls, H1, H2.
    intros H. apply (f_equal user_prompt) in H.
    now apply (split_prompts_differ prefix rest1 rest2).
  - intros world req_body prompt1 H1.
    destruct (recommendationsPrompt_both req_body prompt1 H1)
      as (prompt2 & prefix & rest1 & rest2 & H2 & -> & ->).
    rewrite !loanRecommendations_run, H1, H2. cbn [snd].
    intros H. apply (f_equal user_prompt) in H.
    now apply (split_prompts_differ prefix rest1 rest2).
  - intros req_body. rewrite !loanRecommendations_run.
    destruct (recommendationsPrompt ServerJs req_body),
      (recommendationsPrompt IntegratedServerJs req_body);
      cbn [fst failing_world getChatCompletions]; intros H; discriminate H.
Qed.

Lemma C9_witness :
  (exists prompt1 : jsstring,
      @eligibilityPrompt example_runtime ServerJs
        (sample_request "Home Loan" 500000 720) = Return prompt1)
  /\ snd (run (@checkEligibility example_runtime ServerJs failing_world
                 (sample_request "Home Loan" 500000 720)))
     <> snd (run (@checkEligibility example_runtime IntegratedServerJs
                    failing_world (sample_request "Home Loan" 500000 720))).
Proof.
  split; [eexists; reflexivity|].
  exact (proj1 (proj2 (@C9_entry_points_differ_in_currency_sign example_runtime))
           failing_world (sample_request "Home Loan" 500000 720) _ eq_refl).
Defined.

(* ================================================================== *)
(** * Further properties of the handlers *)
(* ================================================================== *)

(** ** The eligibility handler on every request *)

(** X1: the eligibility handler answers exactly when the request's credit
    score can be read and converted to a number.  Then the answer is 200
    with success true and either aiPowered true and no error field, or
    aiPowered false, an error message and the heuristic analysis with its
    four fields; when another field has no string form the prompt cannot
    be built, no call is made and the answer is the degraded one.  When
    the body cannot be destructured or the credit score has no primitive
    value, the catch block throws in its turn: no call is made and the
    error leaves the handler. *)
Theorem X1_checkEligibility_answers_iff_score_converts {rt : Runtime}
    (ep : EntryPoint) (world : World) (req_body : JsValue) :
  (forall (creditScore : JsValue) (n : number),
      destructure req_body "creditScore" = Return creditScore ->
      ToNumber creditScore = Return n ->
      exists resp : Response,
        fst (run (checkEligibility ep world req_body)) = Return resp
        /\ status resp = 200
        /\ get (body resp) "success" = JBool true
        /\ ((get (body resp) "aiPowered" = JBool true
             /\ has (body resp) "error" = false)
            \/ (get (body resp) "aiPowered" = JBool false
                /\ (exists thrown : jsstring,
                       get (body resp) "error" = JString thrown)
                /\ fully_populated (get (body resp) "analysis") = true)))
  /\ (forall (creditScore : JsValue) (error : Error.t)
             (probability : Z) (risk : string),
         eligibilityPrompt ep req_body = Throw error ->
         destructure req_body "creditScore" = Return creditScore ->
         approvalProbability creditScore = Return probability ->
         riskLevel creditScore = Return risk ->
         run (checkEligibility ep world req_body)
         = (Return
              {| status := 200;
                 body :=
                   obj [ ("success", JBool true);
                         ("analysis",
                          obj [ ("approvalProbability", num probability);
                                ("riskLevel", str risk);
                                ("recommendations",
                                 str "Based on your credit score and income, you have a good chance of approval.");
                                ("suitableBanks",
                                 JArray [str "HDFC Bank"; str "SBI";
                                         str "ICICI Bank"]) ]);
                         ("aiPowered", JBool false);
                         ("error", JString (Error.message error)) ] |},
            []))
  /\ (forall error : Error.t,
         destructure req_body "creditScore" = Throw error
         \/ (exists creditScore : JsValue,
                destructure req_body "creditScore" = Return creditScore
                /\ ToNumber creditScore = Throw error) ->
         run (checkEligibility ep world req_body) = (Throw error, [])).
Proof.
  split; [|split].
  - intros creditScore n Hd Hn.
    destruct (heuristic_of_number _ _ Hn) as (p & r & Hp & Hr & _).
    pose proof (destructure_all req_body _ _ Hd "creditScore") as Hget.
    rewrite Hd in Hget. injection Hget as ->.
    destruct (eligibilityPrompt ep req_body) as [prompt|e] eqn:Hprompt.
    + destruct (getChatCompletions world (deployment world)
                  (eligibilityMessages prompt) eligibilityOptions)
        as [result|error] eqn:Hcall.
      * destruct (first_choice_content result) as [ai|error] eqn:Hchoice.
        -- destruct (parseAiResponse_returns ai _ p r Hp Hr)
             as (analysis & Hparse).
           rewrite (checkEligibility_succeeded ep world req_body prompt result
                      ai analysis Hprompt Hcall Hchoice Hparse).
           eexists. split; [reflexivity|]. split; [reflexivity|].
           split; [reflexivity|]. left. split; reflexivity.
        -- rewrite (checkEligibility_degraded ep world req_body prompt error
                      p r Hprompt
                      (or_intror (ex_intro _ result (conj Hcall Hchoice)))
                      Hp Hr).
           eexists. split; [reflexivity|]. split; [reflexivity|].
           split; [reflexivity|]. right.
           split; [reflexivity|]. split; [eexists; reflexivity|reflexivity].
      * rewrite (checkEligibility_degraded ep world req_body prompt error
                   p r Hprompt (or_introl Hcall) Hp Hr).
        eexists. split; [reflexivity|]. split; [reflexivity|].
        split; [reflexivity|]. right.
        split; [reflexivity|]. split; [eexists; reflexivity|reflexivity].
    + rewrite (checkEligibility_unbuilt ep world req_body e Hprompt).
      rewrite Hd. cbn [bindE]. rewrite Hp, Hr. cbn [bindE fst].
      eexists. split; [reflexivity|]. split; [reflexivity|].
      split; [reflexivity|]. right.
      split; [reflexivity|]. split; [eexists; reflexivity|reflexivity].
  - intros creditScore error p r Hprompt Hd Hp Hr.
    rewrite (checkEligibility_unbuilt ep world req_body error Hprompt).
    rewrite Hd. cbn [bindE]. rewrite Hp, Hr. reflexivity.
  - intros error Hbad.
    assert (Hprompt : exists e, eligibilityPrompt ep req_body = Throw e).
    { destruct (eligibilityPrompt ep req_body) as [prompt|e] eqn:Hprompt;
        [|now exists e].
      destruct (eligibilityPrompt_built ep req_body prompt Hprompt)
        as (Hall & _ & _ & _ & s & _ & _ & _ & _ & Hs & _).
      destruct Hbad as [Hd | (creditScore & Hd & Hn)].
      - rewrite Hall in Hd. discriminate Hd.
      - rewrite Hall in Hd. injection Hd as <-.
        destruct (ToString_gives_ToNumber _ _ Hs) as (n & Hn').
        rewrite Hn' in Hn. discriminate Hn. }
    destruct Hprompt as (e & Hprompt).
    rewrite (checkEligibility_unbuilt ep world req_body e Hprompt).
    destruct Hbad as [Hd | (creditScore & Hd & Hn)]; rewrite Hd; cbn [bindE].
    + reflexivity.
    + destruct (heuristic_throws _ _ Hn) as (Hp & _). now rewrite Hp.
Qed.

Lemma X1_witness :
  (exists resp : Response,
      fst (run (@checkEligibility example_runtime ServerJs
                  (replying_world (str "not json") JNull)
                  unconvertible_type_request)) = Return resp
      /\ status resp = 200
      /\ get (body resp) "aiPowered" = JBool false)
  /\ run (@checkEligibility example_runtime ServerJs
            (replying_world (str "not json") JNull)
            unconvertible_score_request)
     = (Throw TypeError_cannot_convert, []).
Proof.
  destruct (@X1_checkEligibility_answers_iff_score_converts example_runtime
              ServerJs (replying_world (str "not json") JNull)
              unconvertible_type_request) as (Hanswers & _ & _).
  destruct (@X1_checkEligibility_answers_iff_score_converts example_runtime
              ServerJs (replying_world (str "not json") JNull)
              unconvertible_score_request) as (_ & _ & Hout).
  split.
  - destruct (Hanswers (num 720) (num_of_Z 720) eq_refl eq_refl)
      as (resp & Hrun & Hstatus & _ & _).
    exists resp. split; [exact Hrun|]. split; [exact Hstatus|].
    assert (H : fst (run (@checkEligibility example_runtime ServerJs
                            (replying_world (str "not json") JNull)
                            unconvertible_type_request))
                = Return resp) by exact Hrun.
    vm_compute in H. injection H as <-. reflexivity.
  - apply Hout. right. eexists. split; reflexivity.
Defined.

(** X2: each of the two chat handlers makes one outbound call when its
    prompt can be built, and none when an interpolated field has no string
    form; it makes no second attempt after a failure.  The call is a chat
    completion under a deployment name that is never empty, with the fixed
    system message and the prompt as the user message, 500 tokens at most
    for eligibility and 600 for recommendations, at temperature 0.7. *)
Theorem X2_chat_handlers_call_once_when_prompt_builds {rt : Runtime}
    (ep : EntryPoint) (world : World) (req_body : JsValue) :
  snd (run (checkEligibility ep world req_body))
  = match eligibilityPrompt ep req_body with
    | Return prompt =>
        [CallGetChatCompletions (deployment world)
           [ {| ChatRequestMessage.role := lit "system";
                ChatRequestMessage.content :=
                  lit "You are a financial advisor specializing in loan eligibility assessment." |};
             {| ChatRequestMessage.role := lit "user";
                ChatRequestMessage.content := prompt |} ]
           {| ChatOptions.maxTokens := 500;
              ChatOptions.temperature := 7 # 10 |}]
    | Throw _ => []
    end
  /\ snd (run (loanRecommendations ep world req_body))
     = match recommendationsPrompt ep req_body with
       | Return prompt =>
           [CallGetChatCompletions (deployment world)
              [ {| ChatRequestMessage.role := lit "system";
                   ChatRequestMessage.content :=
                     lit "You are a financial advisor helping users choose the right loan products." |};
                {| ChatRequestMessage.role := lit "user";
                   ChatRequestMessage.content := prompt |} ]
              {| ChatOptions.maxTokens := 600;
                 ChatOptions.temperature := 7 # 10 |}]
       | Throw _ => []
       end
  /\ deployment world <> [].
Proof.
  split; [apply checkEligibility_calls|].
  split.
  - rewrite loanRecommendations_run.
    destruct (recommendationsPrompt ep req_body); reflexivity.
  - unfold deployment, env_or.
    destruct (AZURE_OPENAI_DEPLOYMENT world) as [[|c s]|]; discriminate.
Qed.

(** ** The recommendations handler *)

(** X3: the recommendations handler never lets an error out and answers
    200 with success true and no error field.  When the prompt was built,
    the call resolved and its first choice carries a message, the answer
    is exactly that message's content as it came, unparsed, with aiPowered
    true; when the prompt cannot be built, the call rejects or the reply
    has no first message, it is exactly the array of the one fallback loan
    with aiPowered false, the failure being dropped. *)
Theorem X3_loanRecommendations_answers {rt : Runtime}
    (ep : EntryPoint) (world : World) (req_body : JsValue) :
  (forall (prompt : jsstring) (result : ChatCompletions.t)
          (aiResponse : JsValue),
      recommendationsPrompt ep req_body = Return prompt ->
      getChatCompletions world (deployment world)
        (recommendationsMessages prompt) recommendationsOptions
      = Return result ->
      first_choice_content result = Return aiResponse ->
      fst (run (loanRecommendations ep world req_body))
      = Return {| status := 200;
                  body := obj [ ("success", JBool true);
                                ("recommendations", aiResponse);
                                ("aiPowered", JBool true) ] |})
  /\ ((exists error : Error.t,
          recommendationsPrompt ep req_body = Throw error)
      \/ (exists (prompt : jsstring) (error : Error.t),
             recommendationsPrompt ep req_body = Return prompt
             /\ getChatCompletions world (deployment world)
                  (recommendationsMessages prompt) recommendationsOptions
                = Throw error)
      \/ (exists (prompt : jsstring) (result : ChatCompletions.t)
                 (error : Error.t),
             recommendationsPrompt ep req_body = Return prompt
             /\ getChatCompletions world (deployment world)
                  (recommendationsMessages prompt) recommendationsOptions
                = Return result
             /\ first_choice_content result = Throw error) ->
      fst (run (loanRecommendations ep world req_body))
      = Return
          {| status := 200;
             body :=
               obj [ ("success", JBool true);
                     ("recommendations",
                      JArray
                        [ obj [ ("loanType", str "Personal Loan");
                                ("reason",
                                 str "Flexible and quick approval for general purposes");
                                ("amountRange",
                                 JString (rupee ep ++ lit "50,000 - "
                                          ++ rupee ep ++ lit "25,00,000"));
                                ("benefits",
                                 JArray [ str "No collateral";
                                          str "Quick disbursement";
                                          str "Flexible tenure" ]) ] ]);
                     ("aiPowered", JBool false) ] |})
  /\ exists resp : Response,
       fst (run (loanRecommendations ep world req_body)) = Return resp
       /\ status resp = 200
       /\ get (body resp) "success" = JBool true
       /\ has (body resp) "error" = false.
Proof.
  rewrite loanRecommendations_run.
  split; [|split].
  - intros prompt result aiResponse -> -> ->. reflexivity.
  - intros [(error & ->)
           | [(prompt & error & -> & ->)
             | (prompt & result & error & -> & -> & ->)]]; reflexivity.
  - destruct (recommendationsPrompt ep req_body) as [prompt|e].
    + destruct (getChatCompletions world _ _ _) as [result|e].
      * destruct (first_choice_content result);
          eexists; repeat split; reflexivity.
      * eexists; repeat split; reflexivity.
    + eexists; repeat split; reflexivity.
Qed.

Lemma X3_witness :
  fst (run (@loanRecommendations example_runtime IntegratedServerJs
              (replying_world (str "1. Gold Loan") JNull)
              (obj [ ("purpose", str "Wedding"); ("income", num 50000);
                     ("creditScore", num 720) ])))
  = Return {| status := 200;
              body := obj [ ("success", JBool true);
                            ("recommendations", str "1. Gold Loan");
                            ("aiPowered", JBool true) ] |}
  /\ fst (run (@loanRecommendations example_runtime IntegratedServerJs
                 (replying_world (str "1. Gold Loan") JNull)
                 (obj [ ("purpose", obj [("toString", JNull)]) ])))
     = Return {| status := 200;
                 body := obj [ ("success", JBool true);
                               ("recommendations",
                                fallback_recommendations IntegratedServerJs);
                               ("aiPowered", JBool false) ] |}.
Proof.
  split.
  - exact (proj1 (@X3_loanRecommendations_answers example_runtime
                    IntegratedServerJs
                    (replying_world (str "1. Gold Loan") JNull)
                    (obj [ ("purpose", str "Wedding"); ("income", num 50000);
                           ("creditScore", num 720) ]))
             _ _ _ eq_refl eq_refl eq_refl).
  - exact (proj1 (proj2 (@X3_loanRecommendations_answers example_runtime
                           IntegratedServerJs
                           (replying_world (str "1. Gold Loan") JNull)
                           (obj [ ("purpose", obj [("toString", JNull)]) ])))
             (or_introl (ex_intro _ TypeError_cannot_convert eq_refl))).
Defined.

(** ** The document handler on every request *)

Lemma extractedData_shape (file : File.t) (result data : JsValue) :
  extractedData file result = Return data ->
  get data "documentType" = JString (File.mimetype file)
  /\ (exists text : jsstring,
         get data "text" = JString text /\ (List.length text <= 1000)%nat)
  /\ ((exists pages : nat, get data "pages" = num (Z.of_nat pages))
      \/ (exists props : list (jsstring * JsValue),
             getprop result "pages" = Return (JObject props))).
Proof.
  unfold extractedData. intros H.
  destruct (getprop result "pages") as [pages|] eqn:Hpages;
    [|discriminate H].
  destruct (getprop result "content") as [content|]; [|discriminate H].
  cbn [bindE] in H.
  assert (Htext : forall text' : JsValue,
    (if ToBoolean content then
       match content with
       | JString s => Return (JString (substring s 0 1000))
       | _ => Throw (TypeError_not_a_function "result.content.substring")
       end
     else Return (str "")) = Return text' ->
    exists text : jsstring,
      text' = JString text /\ (List.length text <= 1000)%nat).
  { intros text' Ht. destruct (ToBoolean content).
    - destruct content; try discriminate Ht. injection Ht as <-.
      eexists. split; [reflexivity|].
      rewrite substring_from_start, length_firstn. lia.
    - injection Ht as <-. exists []. split; [reflexivity|]. simpl. lia. }
  destruct (if ToBoolean content then _ else _) as [text'|];
    [|discriminate H].
  destruct (Htext text' eq_refl) as (text & -> & Hlen).
  cbn [bindE] in H.
  destruct (getprop result "keyValuePairs") as [pairs|]; [|discriminate H].
  cbn [bindE] in H.
  destruct (if ToBoolean pairs then _ else _) as [entries|];
    [|discriminate H].
  cbn [bindE] in H. injection H as <-.
  split; [reflexivity|]. split; [now exists text|].
  change (get _ "pages") with (or_else (optprop pages "length") (num 0)).
  destruct pages as [| |b|n|s|xs|props].
  - left. now exists 0%nat.
  - left. now exists 0%nat.
  - left. now exists 0%nat.
  - left. now exists 0%nat.
  - left. exists (List.length s). apply length_or_zero.
  - left. exists (List.length xs). apply length_or_zero.
  - right. now exists props.
Qed.

(** X4: the document handler never lets an error out.  Without a file it
    answers 400 with success false and no data; with a file it answers 200
    with success true, whatever the service does or resolves to, and the
    data of either path has a documentType string and a text of at most
    1000 code units.  Its pages count is a natural number, except when the
    pages of the result are an object of their own, whose length is
    copied as it is; it is one whenever the result is a well-typed analysis
    result. *)
Theorem X4_analyzeDocument_always_answers
    (world : World) (req_file : option File.t) :
  (exists resp : Response,
      fst (run (analyzeDocument world req_file)) = Return resp
      /\ match req_file with
         | None =>
             status resp = 400
             /\ get (body resp) "success" = JBool false
             /\ has (body resp) "data" = false
         | Some file =>
             status resp = 200
             /\ get (body resp) "success" = JBool true
             /\ (exists documentType text : jsstring,
                    get (get (body resp) "data") "documentType"
                    = JString documentType
                    /\ get (get (body resp) "data") "text" = JString text
                    /\ (List.length text <= 1000)%nat)
             /\ ((exists pages : nat,
                     get (get (body resp) "data") "pages"
                     = num (Z.of_nat pages))
                 \/ (exists (poller : Poller.t) (result : JsValue)
                            (props : list (jsstring * JsValue)),
                        beginAnalyzeDocument world (lit "prebuilt-document")
                          (File.buffer file) = Return poller
                        /\ Poller.pollUntilDone poller = Return result
                        /\ getprop result "pages" = Return (JObject props)))
         end)
  /\ (forall (file : File.t) (poller : Poller.t) (result : AnalyzeResult.t),
         req_file = Some file ->
         beginAnalyzeDocument world (lit "prebuilt-document")
           (File.buffer file) = Return poller ->
         Poller.pollUntilDone poller = Return (raw_result result) ->
         exists (resp : Response) (pages : nat),
           fst (run (analyzeDocument world req_file)) = Return resp
           /\ get (get (body resp) "data") "pages" = num (Z.of_nat pages)).
Proof.
  split.
  - destruct req_file as [file|].
    + rewrite analyzeDocument_run.
      assert (Hdegraded : forall error : Error.t,
        exists documentType text : jsstring,
          get (get (obj [ ("success", JBool true);
                          ("data",
                           obj [ ("documentType",
                                  or_else (JString (File.mimetype file))
                                    (str "unknown"));
                                 ("pages", num 1);
                                 ("text", str "Document received and validated");
                                 ("message",
                                  str "Document appears clear and readable") ]);
                          ("aiPowered", JBool false);
                          ("error", JString (Error.message error)) ]) "data")
            "documentType" = JString documentType
          /\ JString (lit "Document received and validated") = JString text
          /\ (List.length text <= 1000)%nat).
      { intros error. rewrite placeholder_type.
        eexists _, _. split; [reflexivity|]. split; [reflexivity|].
        simpl. lia. }
      destruct (beginAnalyzeDocument world _ _) as [poller | error] eqn:Hbegin.
      * destruct (Poller.pollUntilDone poller) as [result | error] eqn:Hpoll.
        -- destruct (extractedData file result) as [data | error] eqn:Hdata.
           ++ destruct (extractedData_shape file result data Hdata)
                as (Htype & (text & Htext & Hlen) & Hpages).
              eexists. split; [reflexivity|]. split; [reflexivity|].
              split; [reflexivity|]. split.
              ** exists (File.mimetype file), text. now repeat split.
              ** destruct Hpages as [Hnat | (props & Hprops)];
                   [left; exact Hnat|].
                 right. now exists poller, result, props.
           ++ eexists. split; [reflexivity|]. split; [reflexivity|].
              split; [reflexivity|].
              split; [exact (Hdegraded error)|]. left. now exists 1%nat.
        -- eexists. split; [reflexivity|]. split; [reflexivity|].
           split; [reflexivity|].
           split; [exact (Hdegraded error)|]. left. now exists 1%nat.
      * eexists. split; [reflexivity|]. split; [reflexivity|].
        split; [reflexivity|].
        split; [exact (Hdegraded error)|]. left. now exists 1%nat.
    + eexists. split; [reflexivity|]. repeat split.
  - intros file poller result -> Hbegin Hpoll.
    rewrite analyzeDocument_run, Hbegin, Hpoll, extractedData_of_result.
    eexists _, _. split; reflexivity.
Qed.

Lemma X4_witness :
  exists (resp : Response) (pages : nat),
    fst (run (analyzeDocument
                (replying_world JNull (raw_result sample_result))
                (Some sample_file))) = Return resp
    /\ get (get (body resp) "data") "pages" = num (Z.of_nat pages).
Proof.
  exact (proj2 (X4_analyzeDocument_always_answers
                  (replying_world JNull (raw_result sample_result))
                  (Some sample_file))
           sample_file _ sample_result eq_refl eq_refl eq_refl).
Defined.

(** X5: the document handler calls the document service only: nothing
    without a file; with a file, the analysis of its bytes under the
    prebuilt-document model, and then, only if that call resolved, one
    polling.  It makes two calls at most, never repeats one and never
    reaches the chat service. *)
Theorem X5_analyzeDocument_call_sequence
    (world : World) (req_file : option File.t) :
  snd (run (analyzeDocument world req_file))
  = match req_file with
    | None => []
    | Some file =>
        match beginAnalyzeDocument world (lit "prebuilt-document")
                (File.buffer file) with
        | Throw _ =>
            [CallBeginAnalyzeDocument (lit "prebuilt-document")
               (File.buffer file)]
        | Return _ =>
            [CallBeginAnalyzeDocument (lit "prebuilt-document")
               (File.buffer file);
             CallPollUntilDone]
        end
    end.
Proof.
  destruct req_file as [file|]; [|reflexivity].
  rewrite analyzeDocument_run.
  destruct (beginAnalyzeDocument world _ _); reflexivity.
Qed.

(** ** Replies that are not the expected shape *)



(** X7: when the chat call was made and the content of its reply is null
    (and not a string), JSON.parse reads it as the text null, so the
    analysis of the answer is null, with aiPowered true; a content that is
    undefined does not parse, and the heuristic analysis carries undefined
    as its recommendations. *)
Theorem X7_null_content_gives_null_analysis {rt : Runtime}
    (ep : EntryPoint) (world : World) (req_body : JsValue)
    (prompt : jsstring) (result : ChatCompletions.t)
    (rest : list ChatChoice.t) :
  eligibilityPrompt ep req_body = Return prompt ->
  getChatCompletions world (deployment world)
    (eligibilityMessages prompt) eligibilityOptions = Return result ->
  ChatCompletions.choices result
  = {| ChatChoice.message :=
         Some {| ChatResponseMessage.content := JNull |} |} :: rest ->
  fst (run (checkEligibility ep world req_body))
  = Return {| status := 200;
              body := obj [ ("success", JBool true);
                            ("analysis", JNull);
                            ("aiPowered", JBool true) ] |}
  /\ (forall creditScore : JsValue,
         parseAiResponse JUndefined creditScore
         = (probability <~ approvalProbability creditScore ;;
            risk <~ riskLevel creditScore ;;
            Return
              (obj [ ("approvalProbability", num probability);
                     ("riskLevel", str risk);
                     ("recommendations", JUndefined);
                     ("suitableBanks",
                      JArray [str "HDFC Bank"; str "SBI";
                              str "ICICI Bank"]) ]))).
Proof.
  intros Hprompt Hcall Hchoices. split.
  - assert (Hchoice : first_choice_content result = Return JNull)
      by (unfold first_choice_content; now rewrite Hchoices).
    now rewrite (checkEligibility_succeeded ep world req_body prompt result
                   JNull JNull Hprompt Hcall Hchoice eq_refl).
  - intros creditScore. reflexivity.
Qed.

Lemma X7_witness :
  fst (run (@checkEligibility example_runtime ServerJs
              (replying_world JNull JNull)
              (sample_request "Home Loan" 500000 720)))
  = Return {| status := 200;
              body := obj [ ("success", JBool true);
                            ("analysis", JNull);
                            ("aiPowered", JBool true) ] |}.
Proof.
  exact (proj1 (@X7_null_content_gives_null_analysis example_runtime ServerJs
                  (replying_world JNull JNull)
                  (sample_request "Home Loan" 500000 720)
                  _ _ [] eq_refl eq_refl eq_refl)).
Defined.

(** ** The heuristic beyond the integers *)

(** X8: on a credit score that converts to a number, whatever the number,
    both ternaries return and the pair they give is one of the five rows
    of the table: the probability is 35, 55, 75 or 90, the risk is Low
    exactly from 75 up, and High goes with 35 only.  On a credit score
    that has no primitive value, such as an object with a toString key of
    its own, the first comparison of each ternary throws the TypeError of
    the conversion and no pair is given. *)
Theorem X8_heuristic_pair_is_a_table_row {rt : Runtime} (creditScore : JsValue) :
  (forall n : number,
      ToNumber creditScore = Return n ->
      exists (probability : Z) (risk : string),
        approvalProbability creditScore = Return probability
        /\ riskLevel creditScore = Return risk
        /\ In (probability, risk)
              [ (90, "Low"); (75, "Low"); (55, "Medium"); (35, "Medium");
                (35, "High") ])
  /\ (forall error : Error.t,
         ToNumber creditScore = Throw error ->
         approvalProbability creditScore = Throw error
         /\ riskLevel creditScore = Throw error)
  /\ (forall props : list (jsstring * JsValue),
         creditScore = JObject props ->
         has_own (lit "toString") props = true ->
         approvalProbability creditScore = Throw TypeError_cannot_convert
         /\ riskLevel creditScore = Throw TypeError_cannot_convert).
Proof.
  split; [|split].
  - intros n Hn. exact (heuristic_of_number creditScore n Hn).
  - intros error He. exact (heuristic_throws creditScore error He).
  - intros props -> Hown. apply heuristic_throws.
    unfold ToNumber. cbn [ToString]. now rewrite Hown.
Qed.

Lemma X8_witness :
  (exists (probability : Z) (risk : string),
      @approvalProbability example_runtime (str "abc") = Return probability
      /\ @riskLevel example_runtime (str "abc") = Return risk
      /\ In (probability, risk)
            [ (90, "Low"); (75, "Low"); (55, "Medium"); (35, "Medium");
              (35, "High") ])
  /\ @approvalProbability example_runtime (obj [("toString", num 1)])
     = Throw TypeError_cannot_convert.
Proof.
  split.
  - exact (proj1 (@X8_heuristic_pair_is_a_table_row example_runtime
                    (str "abc")) NaN eq_refl).
  - exact (proj1 (proj2 (proj2 (@X8_heuristic_pair_is_a_table_row
                                  example_runtime
                                  (obj [("toString", num 1)])))
                    _ eq_refl eq_refl)).
Defined.

Lemma heuristic_of_finite {rt : Runtime} (q : Q) :
  approvalProbability (JNumber (Fin q))
  = Return (if Qle_bool (inject_Z 750) q then 90
            else if Qle_bool (inject_Z 700) q then 75
            else if Qle_bool (inject_Z 650) q then 55 else 35)
  /\ riskLevel (JNumber (Fin q))
     = Return (if Qle_bool (inject_Z 700) q then "Low"
               else if Qle_bool (inject_Z 600) q then "Medium"
               else "High")%string.
Proof.
  unfold approvalProbability, riskLevel, ge. cbn [ToNumber bindE].
  destruct (Qle_bool (inject_Z 750) q), (Qle_bool (inject_Z 700) q),
    (Qle_bool (inject_Z 650) q), (Qle_bool (inject_Z 600) q);
    split; reflexivity.
Qed.

Lemma threshold_mono (q1 q2 : Q) (k : Z) :
  (q1 <= q2)%Q ->
  Qle_bool (inject_Z k) q1 = true -> Qle_bool (inject_Z k) q2 = true.
Proof.
  rewrite !Qle_bool_iff. intros H12 H. now apply Qle_trans with q1.
Qed.

(** X9: over the finite numbers, integers or not, the heuristic returns
    and is monotone: a higher score never gets a lower probability nor a
    more severe risk tier. *)
Theorem X9_heuristic_is_monotone {rt : Runtime} (q1 q2 : Q) :
  (q1 <= q2)%Q ->
  exists (probability1 probability2 : Z) (risk1 risk2 : string),
    approvalProbability (JNumber (Fin q1)) = Return probability1
    /\ approvalProbability (JNumber (Fin q2)) = Return probability2
    /\ riskLevel (JNumber (Fin q1)) = Return risk1
    /\ riskLevel (JNumber (Fin q2)) = Return risk2
    /\ probability1 <= probability2
    /\ risk_rank risk2 <= risk_rank risk1.
Proof.
  intros H.
  destruct (heuristic_of_finite q1) as (Hp1 & Hr1).
  destruct (heuristic_of_finite q2) as (Hp2 & Hr2).
  eexists _, _, _, _.
  split; [exact Hp1|]. split; [exact Hp2|].
  split; [exact Hr1|]. split; [exact Hr2|].
  pose proof (threshold_mono q1 q2 750 H) as M1.
  pose proof (threshold_mono q1 q2 700 H) as M2.
  pose proof (threshold_mono q1 q2 650 H) as M3.
  pose proof (threshold_mono q1 q2 600 H) as M4.
  revert M1 M2 M3 M4.
  destruct (Qle_bool (inject_Z 750) q1), (Qle_bool (inject_Z 700) q1),
    (Qle_bool (inject_Z 650) q1), (Qle_bool (inject_Z 600) q1),
    (Qle_bool (inject_Z 750) q2), (Qle_bool (inject_Z 700) q2),
    (Qle_bool (inject_Z 650) q2), (Qle_bool (inject_Z 600) q2);
    intros M1 M2 M3 M4;
    try (specialize (M1 eq_refl); discriminate M1);
    try (specialize (M2 eq_refl); discriminate M2);
    try (specialize (M3 eq_refl); discriminate M3);
    try (specialize (M4 eq_refl); discriminate M4);
    split; vm_compute; discriminate.
Qed.

Lemma X9_witness :
  (1299 # 2 <= 650 # 1)%Q
  /\ exists (probability1 probability2 : Z) (risk1 risk2 : string),
       @approvalProbability example_runtime (JNumber (Fin (1299 # 2)))
       = Return probability1
       /\ @approvalProbability example_runtime (JNumber (Fin (650 # 1)))
          = Return probability2
       /\ @riskLevel example_runtime (JNumber (Fin (1299 # 2))) = Return risk1
       /\ @riskLevel example_runtime (JNumber (Fin (650 # 1))) = Return risk2
       /\ probability1 <= probability2
       /\ risk_rank risk2 <= risk_rank risk1.
Proof.
  assert (H : (1299 # 2 <= 650 # 1)%Q) by (vm_compute; discriminate).
  split; [exact H|].
  exact (@X9_heuristic_is_monotone example_runtime (1299 # 2) (650 # 1) H).
Defined.

(** ** What the request body can and cannot change *)

(** X11: the payload of the eligibility call depends on the request body
    only through what the destructuring reads as loanType, amount, income,
    creditScore and employment and through whether existingLoans is
    truthy: any other key, and which truthy or falsy value existingLoans
    holds, changes nothing, neither in the prompt or the error of its
    construction nor in the calls made. *)
Theorem X11_eligibility_call_reads_six_fields {rt : Runtime}
    (ep : EntryPoint) (world : World) (req_body1 req_body2 : JsValue) :
  destructure req_body1 "loanType" = destructure req_body2 "loanType" ->
  destructure req_body1 "amount" = destructure req_body2 "amount" ->
  destructure req_body1 "income" = destructure req_body2 "income" ->
  destructure req_body1 "creditScore" = destructure req_body2 "creditScore" ->
  destructure req_body1 "employment" = destructure req_body2 "employment" ->
  ToBoolean (get req_body1 "existingLoans")
  = ToBoolean (get req_body2 "existingLoans") ->
  eligibilityPrompt ep req_body1 = eligibilityPrompt ep req_body2
  /\ snd (run (checkEligibility ep world req_body1))
     = snd (run (checkEligibility ep world req_body2)).
Proof.
  intros H1 H2 H3 H4 H5 H6.
  assert (Hprompt : eligibilityPrompt ep req_body1
                    = eligibilityPrompt ep req_body2).
  { unfold eligibilityPrompt.
    destruct (destructure req_body2 "loanType") as [v|e] eqn:Hd.
    - pose proof (destructure_all req_body1 _ _ H1) as Hall1.
      pose proof (destructure_all req_body2 _ _ Hd) as Hall2.
      rewrite Hall1 in H1, H2, H3, H4, H5. rewrite Hall2 in H2, H3, H4, H5.
      rewrite (Hall2 "loanType") in Hd.
      injection H1 as H1. injection H2 as H2. injection H3 as H3.
      injection H4 as H4. injection H5 as H5. injection Hd as Hd.
      rewrite !Hall1, !Hall2. cbn [bindE].
      now rewrite H1, H2, H3, H4, H5, H6.
    - rewrite H1. reflexivity. }
  split; [exact Hprompt|].
  rewrite !checkEligibility_calls. now rewrite Hprompt.
Qed.

Lemma X11_witness :
  sample_request "Home Loan" 500000 720
  <> obj [ ("loanType", str "Home Loan");
           ("amount", num 500000);
           ("income", num 50000);
           ("creditScore", num 720);
           ("employment", str "Salaried");
           ("existingLoans", JNull);
           ("note", str "urgent") ]
  /\ @eligibilityPrompt example_runtime IntegratedServerJs
       (sample_request "Home Loan" 500000 720)
     = @eligibilityPrompt example_runtime IntegratedServerJs
         (obj [ ("loanType", str "Home Loan");
                ("amount", num 500000);
                ("income", num 50000);
                ("creditScore", num 720);
                ("employment", str "Salaried");
                ("existingLoans", JNull);
                ("note", str "urgent") ]).
Proof.
  split; [discriminate|].
  exact (proj1 (@X11_eligibility_call_reads_six_fields example_runtime
                  IntegratedServerJs failing_world
                  (sample_request "Home Loan" 500000 720)
                  (obj [ ("loanType", str "Home Loan");
                         ("amount", num 500000);
                         ("income", num 50000);
                         ("creditScore", num 720);
                         ("employment", str "Salaried");
                         ("existingLoans", JNull);
                         ("note", str "urgent") ])
                  eq_refl eq_refl eq_refl eq_refl eq_refl eq_refl)).
Defined.

(** X12: for requests whose prompt was built, so that the call was made,
    the answer of the eligibility handler is a function of the call's
    outcome and of the request's creditScore alone: two such requests with
    the same creditScore whose calls end the same way get the same answer,
    whatever their other fields and in either entry point.  For requests
    whose prompt could not be built, it is a function of the error of the
    construction and of the creditScore. *)
Theorem X12_eligibility_answer_reads_outcome_and_score {rt : Runtime}
    (ep1 ep2 : EntryPoint) (world1 world2 : World)
    (req_body1 req_body2 : JsValue) :
  (forall prompt1 prompt2 : jsstring,
      eligibilityPrompt ep1 req_body1 = Return prompt1 ->
      eligibilityPrompt ep2 req_body2 = Return prompt2 ->
      get req_body1 "creditScore" = get req_body2 "creditScore" ->
      getChatCompletions world1 (deployment world1)
        (eligibilityMessages prompt1) eligibilityOptions
      = getChatCompletions world2 (deployment world2)
          (eligibilityMessages prompt2) eligibilityOptions ->
      fst (run (checkEligibility ep1 world1 req_body1))
      = fst (run (checkEligibility ep2 world2 req_body2)))
  /\ (forall error : Error.t,
         eligibilityPrompt ep1 req_body1 = Throw error ->
         eligibilityPrompt ep2 req_body2 = Throw error ->
         destructure req_body1 "creditScore"
         = destructure req_body2 "creditScore" ->
         run (checkEligibility ep1 world1 req_body1)
         = run (checkEligibility ep2 world2 req_body2)).
Proof.
  split.
  - intros prompt1 prompt2 Hprompt1 Hprompt2 Hscore Hsame.
    destruct (eligibilityPrompt_score ep1 req_body1 prompt1 Hprompt1)
      as (_ & p & r & Hp1 & Hr1).
    pose proof Hp1 as Hp2. pose proof Hr1 as Hr2.
    rewrite Hscore in Hp2, Hr2.
    destruct (getChatCompletions world2 (deployment world2)
                (eligibilityMessages prompt2) eligibilityOptions)
      as [result | error] eqn:Hcall.
    + destruct (first_choice_content result) as [aiResponse | error]
        eqn:Hchoice.
      * destruct (parseAiResponse_returns aiResponse _ p r Hp2 Hr2)
          as (analysis & Hparse2).
        pose proof Hparse2 as Hparse1. rewrite <- Hscore in Hparse1.
        rewrite (checkEligibility_succeeded ep1 world1 req_body1 prompt1
                   result aiResponse analysis Hprompt1 Hsame Hchoice Hparse1).
        now rewrite (checkEligibility_succeeded ep2 world2 req_body2 prompt2
                       result aiResponse analysis Hprompt2 Hcall Hchoice
                       Hparse2).
      * rewrite (checkEligibility_degraded ep1 world1 req_body1 prompt1 error
                   p r Hprompt1
                   (or_intror (ex_intro _ result (conj Hsame Hchoice)))
                   Hp1 Hr1).
        now rewrite (checkEligibility_degraded ep2 world2 req_body2 prompt2
                       error p r Hprompt2
                       (or_intror (ex_intro _ result (conj Hcall Hchoice)))
                       Hp2 Hr2).
    + rewrite (checkEligibility_degraded ep1 world1 req_body1 prompt1 error
                 p r Hprompt1 (or_introl Hsame) Hp1 Hr1).
      now rewrite (checkEligibility_degraded ep2 world2 req_body2 prompt2
                     error p r Hprompt2 (or_introl Hcall) Hp2 Hr2).
  - intros error Hprompt1 Hprompt2 Hscore.
    rewrite (checkEligibility_unbuilt ep1 world1 req_body1 error Hprompt1).
    rewrite (checkEligibility_unbuilt ep2 world2 req_body2 error Hprompt2).
    now rewrite Hscore.
Qed.

Lemma X12_witness :
  sample_request "Home Loan" 500000 610 <> sample_request "Gold Loan" 40000 610
  /\ fst (run (@checkEligibility example_runtime ServerJs
                 (replying_world (str "not json") JNull)
                 (sample_request "Home Loan" 500000 610)))
     = fst (run (@checkEligibility example_runtime IntegratedServerJs
                   (replying_world (str "not json") JNull)
                   (sample_request "Gold Loan" 40000 610))).
Proof.
  split; [discriminate|].
  exact (proj1 (@X12_eligibility_answer_reads_outcome_and_score
                  example_runtime ServerJs IntegratedServerJs
                  (replying_world (str "not json") JNull)
                  (replying_world (str "not json") JNull)
                  (sample_request "Home Loan" 500000 610)
                  (sample_request "Gold Loan" 40000 610))
           _ _ eq_refl eq_refl eq_refl eq_refl).
Defined.

(** X13: for requests whose prompt was built, so that the call was made,
    the answer of the recommendations handler does not read the request at
    all: within one entry point, two such requests whose calls end the
    same way get the same answer, whatever purpose, income and creditScore
    they hold. *)
Theorem X13_recommendations_answer_reads_outcome_only {rt : Runtime}
    (ep : EntryPoint) (world1 world2 : World) (req_body1 req_body2 : JsValue)
    (prompt1 prompt2 : jsstring) :
  recommendationsPrompt ep req_body1 = Return prompt1 ->
  recommendationsPrompt ep req_body2 = Return prompt2 ->
  getChatCompletions world1 (deployment world1)
    (recommendationsMessages prompt1) recommendationsOptions
  = getChatCompletions world2 (deployment world2)
      (recommendationsMessages prompt2) recommendationsOptions ->
  fst (run (loanRecommendations ep world1 req_body1))
  = fst (run (loanRecommendations ep world2 req_body2)).
Proof.
  intros Hprompt1 Hprompt2 Hsame.
  rewrite !loanRecommendations_run, Hprompt1, Hprompt2. cbn [fst].
  now rewrite Hsame.
Qed.

Lemma X13_witness :
  fst (run (@loanRecommendations example_runtime ServerJs failing_world
              (obj [ ("purpose", str "Wedding"); ("income", num 50000);
                     ("creditScore", num 720) ])))
  = fst (run (@loanRecommendations example_runtime ServerJs
                poll_failing_world (obj []))).
Proof.
  exact (@X13_recommendations_answer_reads_outcome_only example_runtime
           ServerJs failing_world poll_failing_world
           (obj [ ("purpose", str "Wedding"); ("income", num 50000);
                  ("creditScore", num 720) ])
           (obj []) _ _ eq_refl eq_refl eq_refl).
Defined.

(** ** The health check *)

(** X14: the health check answers 200 with status ok and makes no outbound
    call: each of its two flags is true exactly when the key's variable is
    set to a text that is not empty, whether or not the service can be
    reached.  Only [integrated-server.js] adds a server object; its port is
    the text of the PORT variable when that is set and not empty, and the
    number 3000 otherwise. *)
Theorem X14_health_reports_configuration (ep : EntryPoint) (env : ProcessEnv) :
  exists resp : Response,
    run (health ep env) = (Return resp, [])
    /\ status resp = 200
    /\ get (body resp) "status" = str "ok"
    /\ (get (get (body resp) "azureServices") "openai" = JBool true
        <-> exists c s, AZURE_OPENAI_API_KEY env = Some (c :: s))
    /\ (get (get (body resp) "azureServices") "openai" = JBool false
        <-> AZURE_OPENAI_API_KEY env = None \/ AZURE_OPENAI_API_KEY env = Some [])
    /\ (get (get (body resp) "azureServices") "documentIntelligence" = JBool true
        <-> exists c s, AZURE_DOCS_API_KEY env = Some (c :: s))
    /\ (get (get (body resp) "azureServices") "documentIntelligence" = JBool false
        <-> AZURE_DOCS_API_KEY env = None \/ AZURE_DOCS_API_KEY env = Some [])
    /\ has (body resp) "server"
       = match ep with ServerJs => false | IntegratedServerJs => true end
    /\ (ep = IntegratedServerJs ->
        (forall c s, PORT_variable env = Some (c :: s) ->
                     get (get (body resp) "server") "port" = JString (c :: s))
        /\ (PORT_variable env = None \/ PORT_variable env = Some [] ->
            get (get (body resp) "server") "port" = num 3000)).
Proof.
  assert (Hflag : forall v : option jsstring,
             (JBool (env_set v) = JBool true <-> exists c s, v = Some (c :: s))
             /\ (JBool (env_set v) = JBool false <-> v = None \/ v = Some [])).
  { intros [[|c s]|]; cbn; repeat split; intros H;
      try discriminate; try (now eauto);
      try (destruct H as (? & ? & ?); discriminate);
      try (destruct H; discriminate). }
  destruct ep; eexists; (split; [reflexivity|]);
    (split; [reflexivity|]); (split; [reflexivity|]);
    (split; [apply (Hflag (AZURE_OPENAI_API_KEY env))|]);
    (split; [apply (Hflag (AZURE_OPENAI_API_KEY env))|]);
    (split; [apply (Hflag (AZURE_DOCS_API_KEY env))|]);
    (split; [apply (Hflag (AZURE_DOCS_API_KEY env))|]);
    (split; [reflexivity|]); intros Hep; try discriminate Hep.
  change (get (get (body _) "server") "port") with (PORT IntegratedServerJs env).
  unfold PORT. split.
  - intros c s ->. reflexivity.
  - intros [-> | ->]; reflexivity.
Qed.

Lemma X14_witness :
  PORT_variable sample_env = Some (lit "8080")
  /\ get (get (match fst (run (health IntegratedServerJs sample_env)) with
               | Return resp => body resp
               | Throw _ => JUndefined
               end) "server") "port" = str "8080"
  /\ get (get (match fst (run (health IntegratedServerJs sample_env)) with
               | Return resp => body resp
               | Throw _ => JUndefined
               end) "azureServices") "documentIntelligence" = JBool false.
Proof.
  destruct (X14_health_reports_configuration IntegratedServerJs sample_env)
    as (resp & Hrun & _ & _ & _ & _ & _ & Hdocs & _ & Hport).
  split; [reflexivity|].
  rewrite (f_equal fst Hrun). cbn [fst].
  split.
  - exact (proj1 (Hport eq_refl) _ _ eq_refl).
  - apply Hdocs. right. reflexivity.
Defined.
